(** * TOSA legalization utilities: a shallow embedding of
    [tensorflow/compiler/mlir/tosa/transforms/legalize_utils.cc]

    The development follows the source file top to bottom: machine integers
    and IEEE doubles, the fragment of the MLIR object model the helpers
    touch, the rewriter as an explicit state with an abort outcome for
    failed assertions, then the helpers themselves and the properties
    established about them. *)

From Stdlib Require Import ZArith List Lia Bool String.
From Stdlib Require Import Uint63 Floats.
Import ListNotations.

Local Open Scope Z_scope.

(** ** Machine integers

    Fixed-width C++ integers are carried in [Z]; a conversion to a [w]-bit
    signed type is the two's complement wrap-around. *)

Module MachineInt.

Definition wrap (w : Z) (x : Z) : Z :=
  (x + 2 ^ (w - 1)) mod 2 ^ w - 2 ^ (w - 1).

Definition to_int16 : Z -> Z := wrap 16.
Definition to_int32 : Z -> Z := wrap 32.
Definition to_int64 : Z -> Z := wrap 64.
Definition to_uint32 (x : Z) : Z := x mod 2 ^ 32.

Definition INT64_MIN : Z := - 2 ^ 63.
Definition INT64_MAX : Z := 2 ^ 63 - 1.

Definition in_int16 (x : Z) : Prop := -32768 <= x <= 32767.
Definition in_int32 (x : Z) : Prop := - 2 ^ 31 <= x <= 2 ^ 31 - 1.

(** [std::min] and [std::max] on integers. *)
Definition std_min (a b : Z) : Z := if b <? a then b else a.
Definition std_max (a b : Z) : Z := if a <? b then b else a.

(** The idiom [static_cast<int16_t>(std::min(std::max(x, -32768), 32767))]
    shared by the 8-bit and the 16-bit table builders. *)
Definition clamp_to_int16 (x : Z) : Z :=
  to_int16 (std_min (std_max x (-32768)) 32767).

End MachineInt.
Export MachineInt.

(** ** Doubles

    [double] is IEEE 754 binary64, which is what Rocq's primitive floats
    are.  The C library roundings are written out on the decoded
    (sign, mantissa, exponent) form. *)

Definition double : Set := float.
Bind Scope float_scope with double.

Module Double.

(** Conversion of a (32-bit or 64-bit) integer to [double]; exact for
    every magnitude below 2^53. *)
Definition of_int (z : Z) : double :=
  if z <? 0 then PrimFloat.opp (PrimFloat.of_uint63 (Uint63.of_Z (- z)))
  else PrimFloat.of_uint63 (Uint63.of_Z z).

(** [std::min] and [std::max] on doubles: [(b < a) ? b : a] and
    [(a < b) ? b : a]; a NaN first argument is returned as it is. *)
Definition std_min (a b : double) : double :=
  if PrimFloat.ltb b a then b else a.
Definition std_max (a b : double) : double :=
  if PrimFloat.ltb a b then b else a.

(** Magnitude [m * 2^e] rounded to the nearest integer, halfway cases
    away from zero. *)
Definition round_magnitude (m : positive) (e : Z) : Z :=
  if 0 <=? e then Z.pos m * 2 ^ e
  else let d := 2 ^ (- e) in (2 * Z.pos m + d) / (2 * d).

(** Magnitude [m * 2^e] truncated toward zero. *)
Definition trunc_magnitude (m : positive) (e : Z) : Z :=
  if 0 <=? e then Z.pos m * 2 ^ e else Z.pos m / 2 ^ (- e).

(** [std::round]: the result is again a double.  A finite value with a
    non-negative exponent is already integral. *)
Definition round (x : double) : double :=
  match Prim2SF x with
  | S754_finite s m e =>
      if 0 <=? e then x
      else let r := of_int (round_magnitude m e) in
           if s then PrimFloat.opp r else r
  | _ => x
  end.

(** [std::llround]: the result is a [long long].  The C standard leaves
    the result unspecified for NaN, the infinities and values outside the
    range of [long long]; the value taken here is the one x86-64 produces
    (the "integer indefinite" value).  No property below depends on that
    choice. *)
Definition llround (x : double) : Z :=
  match Prim2SF x with
  | S754_zero _ => 0
  | S754_finite s m e =>
      let r := round_magnitude m e in
      let v := if s then - r else r in
      if (INT64_MIN <=? v) && (v <=? INT64_MAX) then v else INT64_MIN
  | _ => INT64_MIN
  end.

(** [static_cast<int64_t>(x)]: truncation toward zero, with the same
    convention as [llround] outside the range of [int64_t]. *)
Definition to_int64 (x : double) : Z :=
  match Prim2SF x with
  | S754_zero _ => 0
  | S754_finite s m e =>
      let r := trunc_magnitude m e in
      let v := if s then - r else r in
      if (INT64_MIN <=? v) && (v <=? INT64_MAX) then v else INT64_MIN
  | _ => INT64_MIN
  end.

End Double.

(** ** The fragment of the MLIR object model used by the helpers *)

(** [quant::UniformQuantizedType]: per-tensor affine quantization.  The
    expressed type is [f32] at every use in this file and is not carried. *)
Record UniformQuantizedType : Set := mkUniformQuantizedType {
  uq_signed : bool;
  uq_storage_width : Z;
  uq_scale : double;
  uq_zero_point : Z;
  uq_storage_min : Z;
  uq_storage_max : Z
}.

(** [quant::UniformQuantizedPerAxisType]: one scale and zero point per slice
    of the quantized dimension. *)
Record UniformQuantizedPerAxisType : Set := mkUniformQuantizedPerAxisType {
  pa_signed : bool;
  pa_storage_width : Z;
  pa_scales : list double;
  pa_zero_points : list Z;
  pa_quantized_dimension : Z;
  pa_storage_min : Z;
  pa_storage_max : Z
}.

(** Element types.  [AnyQuantizedType] stands for the quantized types that
    are neither uniform per-tensor nor uniform per-axis. *)
Inductive ElementType : Set :=
| IntegerType (width : Z)
| F32Type
| AnyQuantizedType (storage_width : Z)
| UniformQuantized (q : UniformQuantizedType)
| UniformQuantizedPerAxis (q : UniformQuantizedPerAxisType).

Record RankedTensorType : Set := mkRankedTensorType {
  getShape : list Z;
  getElementType : ElementType
}.

Inductive MlirType : Set :=
| Ranked (t : RankedTensorType)
| Unranked (elt : ElementType).

Inductive Attribute : Set :=
| IntegerAttr (width : Z) (value : Z)
| BoolAttr (b : bool)
| StringAttr (s : string)
| DenseElementsAttr (ty : RankedTensorType) (data : list Z).

(** An [ArrayAttr] is indexed like an array of attributes. *)
Definition ArrayAttr : Set := list Attribute.

(** Operations and the values they define.  An [OpResult] carries the
    position of its operation in the rewriter's creation order, so that two
    operations with the same contents define different values. *)
Inductive Operation : Set :=
| TosaRescaleOp (output_type : RankedTensorType) (input : Value)
    (input_zp output_zp : Z) (multiplier shift : list Z)
    (scale32 double_round per_channel : bool)
| TosaConstOp (ty : RankedTensorType) (value : Attribute)
| TflQConstOp (ty : MlirType) (value : Attribute)
| OtherOp (name : string) (ty : MlirType)
with Value : Set :=
| OpResult (id : nat) (op : Operation)
| BlockArgument (index : nat) (ty : MlirType)
| NullValue.

Definition getResultType (op : Operation) : MlirType :=
  match op with
  | TosaRescaleOp output_type _ _ _ _ _ _ _ _ => Ranked output_type
  | TosaConstOp ty _ => Ranked ty
  | TflQConstOp ty _ => ty
  | OtherOp _ ty => ty
  end.

(** [Value::getType] and [Value::getDefiningOp]; the latter is null for a
    block argument. *)
Definition getType (v : Value) : option MlirType :=
  match v with
  | OpResult _ op => Some (getResultType op)
  | BlockArgument _ ty => Some ty
  | NullValue => None
  end.

Definition getDefiningOp (v : Value) : option Operation :=
  match v with
  | OpResult _ op => Some op
  | _ => None
  end.

Definition dyn_cast_RankedTensorType (t : option MlirType)
  : option RankedTensorType :=
  match t with
  | Some (Ranked r) => Some r
  | _ => None
  end.

Definition dyn_cast_UniformQuantizedType (e : ElementType)
  : option UniformQuantizedType :=
  match e with
  | UniformQuantized q => Some q
  | _ => None
  end.

Definition dyn_cast_UniformQuantizedPerAxisType (e : ElementType)
  : option UniformQuantizedPerAxisType :=
  match e with
  | UniformQuantizedPerAxis q => Some q
  | _ => None
  end.

(** [dyn_cast<quant::QuantizedType>]: the base class of all three quantized
    element types. *)
Definition dyn_cast_QuantizedType (e : ElementType) : option ElementType :=
  match e with
  | AnyQuantizedType _ | UniformQuantized _ | UniformQuantizedPerAxis _ =>
      Some e
  | _ => None
  end.

Definition getStorageTypeIntegralWidth (e : ElementType) : Z :=
  match e with
  | AnyQuantizedType w => w
  | UniformQuantized q => uq_storage_width q
  | UniformQuantizedPerAxis q => pa_storage_width q
  | IntegerType w => w
  | F32Type => 32
  end.

Definition isInteger (w : Z) (e : ElementType) : bool :=
  match e with
  | IntegerType w' => w' =? w
  | _ => false
  end.

(** [tensorflow::Padding] (core/util/padding.h). *)
Inductive Padding : Set := VALID | SAME | EXPLICIT.

Definition Padding_eqb (a b : Padding) : bool :=
  match a, b with
  | VALID, VALID | SAME, SAME | EXPLICIT, EXPLICIT => true
  | _, _ => false
  end.

(** Modelled from the spec: the tensor layouts of
    [tensorflow/core/util/tensor_format.h], which is not part of the
    sources at hand.  The specification restricts the padding translators
    to "a 4-dimensional tensor in either channel-first or channel-last
    layout". *)
Inductive TensorFormat : Set := FORMAT_NHWC | FORMAT_NCHW.

(** Modelled from the spec: [GetTensorSpatialDimIndex] of the same header.
    The padding translator below takes the function as a parameter; this
    instance (spatial dimensions after the batch dimension, and after the
    channel dimension too when channels come first) is used only to run it
    on concrete inputs. *)
Definition GetTensorSpatialDimIndex_4d
  (num_dims : Z) (format : TensorFormat) (spatial_dim : Z) : Z :=
  match format with
  | FORMAT_NHWC => spatial_dim + 1
  | FORMAT_NCHW => spatial_dim + 2
  end.

(** ** Outcomes, the rewriter, and the two monads

    A failed [assert], an out-of-range index into an LLVM container and a
    member access through a null type handle all end the call; they are the
    [Aborted] outcome.  Assertions are modelled as enabled. *)

Inductive Outcome (A : Type) : Type :=
| Returned (a : A)
| Aborted (why : string).
Arguments Returned {A} a.
Arguments Aborted {A} why.

(** What the helpers change in their environment: the operations created
    through the [PatternRewriter], oldest first, and the diagnostics emitted
    on operations. *)
Record Host : Set := mkHost {
  created : list Operation;
  diagnostics : list (Operation * string)
}.

Definition Rewrite (A : Type) : Type := Host -> Outcome (A * Host).

Class Monad (m : Type -> Type) : Type := {
  ret : forall {A}, A -> m A;
  bind : forall {A B}, m A -> (A -> m B) -> m B
}.

#[export] Instance Monad_Outcome : Monad Outcome := {
  ret := fun A a => Returned a;
  bind := fun A B c k =>
    match c with
    | Returned a => k a
    | Aborted why => Aborted why
    end
}.

#[export] Instance Monad_Rewrite : Monad Rewrite := {
  ret := fun A a h => Returned (a, h);
  bind := fun A B c k h =>
    match c h with
    | Returned (a, h') => k a h'
    | Aborted why => Aborted why
    end
}.

Notation "x <- c ;; k" := (bind c (fun x => k))
  (at level 61, c at next level, right associativity).
Notation "c ;;; k" := (bind c (fun _ => k))
  (at level 61, right associativity).

(** A pure step that may abort, run inside the rewriter. *)
Definition lift {A} (c : Outcome A) : Rewrite A :=
  fun h => match c with
           | Returned a => Returned (a, h)
           | Aborted why => Aborted why
           end.

Definition assert (cond : bool) (msg : string) : Outcome unit :=
  if cond then Returned tt else Aborted msg.

(** Access through a handle that a [dyn_cast] may have left null. *)
Definition deref {A} (x : option A) (what : string) : Outcome A :=
  match x with
  | Some a => Returned a
  | None => Aborted what
  end.

(** [operator[]] of [ArrayRef], [SmallVector] and [ArrayAttr]: the index is
    asserted to be below the size. *)
Definition at_index {A} (l : list A) (idx : Z) : Outcome A :=
  if (0 <=? idx) && (idx <? Z.of_nat (List.length l)) then
    deref (nth_error l (Z.to_nat idx)) "index out of range"
  else Aborted "index out of range".

(** [ShapedType::getDimSize(unsigned idx)]. *)
Definition getDimSize (t : RankedTensorType) (idx : Z) : Outcome Z :=
  at_index (getShape t) (to_uint32 idx).

(** [attr.cast<IntegerAttr>().getInt()]. *)
Definition cast_IntegerAttr_getInt (a : Attribute) : Outcome Z :=
  match a with
  | IntegerAttr _ v => Returned v
  | _ => Aborted "cast<IntegerAttr> on another attribute"
  end.

(** [rewriter.create<OpTy>(...)] followed by [getResult()]. *)
Definition create (op : Operation) : Rewrite Value :=
  fun h => Returned (OpResult (List.length (created h)) op,
                     mkHost (created h ++ [op]) (diagnostics h)).

(** [op->emitOpError(msg)]. *)
Definition emitOpError (op : Operation) (msg : string) : Rewrite unit :=
  fun h => Returned (tt, mkHost (created h) (diagnostics h ++ [(op, msg)])).

(** [rewriter.getI64ArrayAttr]. *)
Definition getI64ArrayAttr (l : list Z) : ArrayAttr :=
  map (IntegerAttr 64) l.

(** The integers [lo, lo+1, ..., lo+n-1]: the values a counting [for] loop
    with constant bounds gives to its index. *)
Definition Zrange (lo : Z) (n : nat) : list Z :=
  map (fun k => lo + Z.of_nat k) (seq 0 n).

(** [vec.push_back(x)]. *)
Definition push_back {A} (vec : list A) (x : A) : list A := vec ++ [x].

(** [arr[idx] = x] on a [std::array]. *)
Fixpoint array_set {A} (arr : list A) (idx : nat) (x : A) : list A :=
  match arr, idx with
  | [], _ => []
  | _ :: tl, O => x :: tl
  | hd :: tl, S idx' => hd :: array_set tl idx' x
  end.

(** A loop whose body may abort: the body runs on each index in turn and
    the first abort ends the loop. *)
Fixpoint for_each {A S} (l : list A) (body : A -> S -> Outcome S) (s : S)
  : Outcome S :=
  match l with
  | [] => Returned s
  | x :: tl => s' <- body x s ;; for_each tl body s'
  end.

(** ** Lookup-table builders *)

(** The element type and the two tensor types every table constant gets:
    [UniformQuantizedType::get(true, i16, f32, 1.0f, 0, -32768, 32767)],
    [RankedTensorType::get({513}, element_qtype)] and the same shape over
    the storage type. *)
Definition table_element_qtype : UniformQuantizedType :=
  mkUniformQuantizedType true 16 1%float 0 (-32768) 32767.

Definition table_const_type : RankedTensorType :=
  mkRankedTensorType [513] (UniformQuantized table_element_qtype).

Definition table_storage_type : RankedTensorType :=
  mkRankedTensorType [513] (IntegerType (uq_storage_width table_element_qtype)).

(** The tail shared by the three builders: wrap the entries in a dense
    attribute of the storage type and create the constant. *)
Definition create_table_const (table : list Z) : Rewrite Value :=
  create (TosaConstOp table_const_type
            (DenseElementsAttr table_storage_type table)).

(** Body of the loop of [getTosaConst8bitTable] for index [i]. *)
Definition table8_entry (input_scale : double) (input_zp : Z)
  (output_scale : double) (output_zp : Z) (func : double -> double) (i : Z)
  : Z :=
  let dequantized :=
    (input_scale * Double.of_int (to_int32 (i - input_zp)))%float in
  let transformed := func dequantized in
  let rescaled := to_int32 (Double.llround (transformed / output_scale)%float) in
  let quantized := to_int32 (rescaled + output_zp) in
  clamp_to_int16 quantized.

Definition table8_vec (input_scale : double) (input_zp : Z)
  (output_scale : double) (output_zp : Z) (func : double -> double)
  : list Z :=
  fold_left
    (fun table_vec i =>
       push_back table_vec
         (table8_entry input_scale input_zp output_scale output_zp func i))
    (Zrange (-256) 513) [].

Definition getTosaConst8bitTable (op : Operation)
  (input_scale : double) (input_zp : Z) (output_scale : double)
  (output_zp : Z) (func : double -> double) : Rewrite Value :=
  create_table_const
    (table8_vec input_scale input_zp output_scale output_zp func).

(** Body of the loop of [getTosaConst16bitTable] for index [i]. *)
Definition table16_entry (func : double -> double) (min step half_step : double)
  (i : Z) : Z :=
  let at_i := (min + Double.of_int i * step)%float in
  let sample_val := to_int32 (Double.llround (func at_i * 32768)%float) in
  let midpoint_interp_val :=
    Double.round
      ((func (min + Double.of_int (to_int32 (i + 1)) * step) * 32768
        + Double.round (func at_i * 32768)) / 2)%float in
  let midpoint_val :=
    Double.round (func (at_i + half_step) * 32768)%float in
  let midpoint_err := (midpoint_interp_val - midpoint_val)%float in
  let bias := to_int32 (Double.llround (midpoint_err / 2)%float) in
  clamp_to_int16 (to_int32 (sample_val - bias)).

(** The loop runs for [i = 0] up to and including [i = 512], and one more
    entry is pushed after it. *)
Definition table16_vec (func : double -> double) (min max : double)
  : list Z :=
  let step := ((max - min) / 512)%float in
  let half_step := (step / 2)%float in
  let table_vec :=
    fold_left
      (fun table_vec i =>
         push_back table_vec (table16_entry func min step half_step i))
      (Zrange 0 513) [] in
  let max_val := to_int32 (Double.llround (func max * 32768)%float) in
  push_back table_vec (clamp_to_int16 max_val).

Definition getTosaConst16bitTable (op : Operation)
  (func : double -> double) (min max : double) : Rewrite Value :=
  create_table_const (table16_vec func min max).

(** [static_cast<double>(1L << 31)]. *)
Definition output_inv_scale : double := Double.of_int (Z.shiftl 1 31).

(** In [getTosaConst32bitTable]: the clamped 64-bit integer a transformed
    value is rescaled to. *)
Definition table32_rescaled (transformed : double) : Z :=
  let truncated :=
    Double.std_min (Double.std_max transformed (-1)%float) 1%float in
  let rescaled :=
    Double.to_int64 (Double.round (truncated * output_inv_scale)%float) in
  if rescaled =? Z.shiftl 1 31 then Z.shiftl 1 31 - 1 else rescaled.

(** The two [int32_t] halves, before they are stored. *)
Definition table32_upper (rescaled : Z) : Z :=
  to_int32 (Z.land (Z.shiftr rescaled 16) 0xFFFF).

Definition table32_lower (rescaled : Z) : Z :=
  to_int32 (Z.land rescaled 0xFFFF - 0x8000).

(** Body of the loop of [getTosaConst32bitTable] for index [i]: the pair
    stored at position [i + 256] of the two [int16_t] arrays. *)
Definition table32_entry (input_scale : double) (input_zp : Z)
  (func : double -> double) (i : Z) : Z * Z :=
  let dequantized :=
    (input_scale * Double.of_int (to_int32 (i - input_zp)))%float in
  let transformed := func dequantized in
  let rescaled := table32_rescaled transformed in
  (to_int16 (table32_upper rescaled), to_int16 (table32_lower rescaled)).

(** The two arrays after the loop.  A [std::array] starts out with
    indeterminate contents, here zeros; every position is written. *)
Definition table32_arrays (input_scale : double) (input_zp : Z)
  (func : double -> double) : list Z * list Z :=
  fold_left
    (fun '(upper_table_array, lower_table_array) i =>
       let entry := table32_entry input_scale input_zp func i in
       (array_set upper_table_array (Z.to_nat (i + 256)) (fst entry),
        array_set lower_table_array (Z.to_nat (i + 256)) (snd entry)))
    (Zrange (-256) 513) (repeat 0 513, repeat 0 513).

(** The results are the two reference parameters [upper_const] and
    [lower_const], in this order. *)
Definition getTosaConst32bitTable (op : Operation)
  (input_scale : double) (input_zp : Z) (func : double -> double)
  : Rewrite (Value * Value) :=
  let '(upper_table_array, lower_table_array) :=
    table32_arrays input_scale input_zp func in
  upper_const <- create_table_const upper_table_array ;;
  lower_const <- create_table_const lower_table_array ;;
  ret (upper_const, lower_const).

(** The table of a created constant, when the value is one. *)
Definition table_of (v : Value) : option (list Z) :=
  match v with
  | OpResult _ (TosaConstOp _ (DenseElementsAttr _ data)) => Some data
  | _ => None
  end.

(** How the consumer recovers the 32-bit value from a pair of table
    outputs (comment in the loop of [getTosaConst32bitTable]: the offset
    0x8000 subtracted from the lower half is added back). *)
Definition reassemble (upper lower : Z) : Z :=
  upper * 2 ^ 16 + (lower + 0x8000).

(** ** Scale policy *)

(** [isScale32]. *)
Definition isScale32 (output_element_type : UniformQuantizedType) : bool :=
  if uq_storage_width output_element_type =? 8 then true else false.

(** ** Rescale builders

    [computeMultiplierAndShift] belongs to MLIR's TOSA utilities
    (QuantUtils.h) and is a parameter here: from a scale and a scale width
    it gives the multiplier and the shift. *)

Section RescaleBuilders.

Variable computeMultiplierAndShift : double -> Z -> Z * Z.

(** [buildRescale]. *)
Definition buildRescale (op : Operation) (output_type : RankedTensorType)
  (input_val : Value) (scale : double) (input_zp output_zp : Z)
  (double_round scale32 : bool) : Rewrite Value :=
  let scale_width := if scale32 then 32 else 16 in
  let '(multiplier, shift) := computeMultiplierAndShift scale scale_width in
  create (TosaRescaleOp output_type input_val
            (to_int32 input_zp) (to_int32 output_zp)
            [multiplier] [shift] scale32 double_round false).

(** [buildRescaleToInt32]. *)
Definition buildRescaleToInt32 (op : Operation) (input_val : Value)
  (input_scale : double) (input_zp : Z) : Rewrite Value :=
  input_type <-
    lift (deref (dyn_cast_RankedTensorType (getType input_val))
            "assert(input_type)") ;;
  let output_type :=
    mkRankedTensorType (getShape input_type) (IntegerType 32) in
  buildRescale op output_type input_val input_scale input_zp 0 false true.

(** [buildRescaleFromInt32]. *)
Definition buildRescaleFromInt32 (op : Operation)
  (output_type : RankedTensorType) (input_val : Value)
  (output_scale : double) (output_zp : Z) : Rewrite Value :=
  let input_type := dyn_cast_RankedTensorType (getType input_val) in
  lift (assert
          (match input_type with
           | Some t => isInteger 32 (getElementType t)
           | None => false
           end)
          "expected rescale input element type to be i32") ;;;
  buildRescale op output_type input_val output_scale 0 output_zp true true.

(** The loop of the per-channel branch of [buildRescaleOpConvOutput]:
    one multiplier and one shift pushed per output channel. *)
Definition conv_channel_loop (input_scale output_scale : double)
  (scale_width : Z) (weight_scale_arr : list double) (output_channels : Z)
  : Outcome (list Z * list Z) :=
  for_each (Zrange 0 (Z.to_nat output_channels))
    (fun oc '(multiplier_arr, shift_arr) =>
       weight_scale <- at_index weight_scale_arr oc ;;
       let op_channel_scale :=
         ((input_scale * weight_scale) / output_scale)%float in
       let '(multiplier, shift) :=
         computeMultiplierAndShift op_channel_scale scale_width in
       ret (push_back multiplier_arr multiplier, push_back shift_arr shift))
    ([], []).

(** [buildRescaleOpConvOutput]. *)
Definition buildRescaleOpConvOutput (op : Operation) (conv_val : Value)
  (input_type weight_type output_type : RankedTensorType)
  : Rewrite Value :=
  let input_qtype :=
    dyn_cast_UniformQuantizedType (getElementType input_type) in
  let output_qtype :=
    dyn_cast_UniformQuantizedType (getElementType output_type) in
  input_q <- lift (deref input_qtype "input_qtype.getScale()") ;;
  let input_scale := uq_scale input_q in
  output_q <- lift (deref output_qtype "output_qtype.getZeroPoint()") ;;
  let output_zp := uq_zero_point output_q in
  let output_scale := uq_scale output_q in
  let scale32 := isScale32 output_q in
  let scale_width := if scale32 then 32 else 16 in
  match dyn_cast_UniformQuantizedType (getElementType weight_type) with
  | Some weight_per_tensor_qtype =>
      (* Per-tensor quantization *)
      let weight_scale := uq_scale weight_per_tensor_qtype in
      let op_tensor_scale :=
        ((input_scale * weight_scale) / output_scale)%float in
      let '(multiplier, shift) :=
        computeMultiplierAndShift op_tensor_scale scale_width in
      create (TosaRescaleOp output_type conv_val 0 (to_int32 output_zp)
                [multiplier] [shift] scale32 true false)
  | None =>
      match dyn_cast_UniformQuantizedPerAxisType
              (getElementType weight_type) with
      | Some weight_per_channel_qtype =>
          (* Per-channel quantization *)
          (* size() - 1 is unsigned: on an empty shape it wraps to SIZE_MAX,
             which is out of range just as -1 is here *)
          let output_last_axis :=
            Z.of_nat (List.length (getShape output_type)) - 1 in
          last_dim <- lift (at_index (getShape output_type) output_last_axis) ;;
          let output_channels := to_uint32 last_dim in
          let weight_scale_arr := pa_scales weight_per_channel_qtype in
          let output_zp := uq_zero_point output_q in
          let output_scale := uq_scale output_q in
          arrs <- lift (conv_channel_loop input_scale output_scale
                          scale_width weight_scale_arr output_channels) ;;
          let '(multiplier_arr, shift_arr) := arrs in
          create (TosaRescaleOp output_type conv_val 0 (to_int32 output_zp)
                    multiplier_arr shift_arr scale32 true true)
      | None =>
          emitOpError op "buildConvRescaleOp: unknown weight quantized type" ;;;
          ret NullValue
      end
  end.

End RescaleBuilders.

(** ** Padding translator for transposed convolution *)

Section PaddingTranslator.

(** [GetTensorSpatialDimIndex(num_dims, format, spatial_dim)], from
    [tensorflow/core/util/tensor_format.h]. *)
Variable GetTensorSpatialDimIndex : Z -> TensorFormat -> Z -> Z.

(** The arithmetic of one spatial dimension; [effective_filter_size] and
    [total_padding] are [int], everything else is [int64_t].  The result
    is [(pad_before, pad_after)]. *)
Definition transpose_conv_padding (ifm_size filter_size ofm_size
  dim_dilation dim_stride : Z) : Z * Z :=
  let effective_filter_size :=
    to_int32 (to_int64 ((filter_size - 1) * dim_dilation + 1)) in
  let total_padding :=
    to_int32 (to_int64 ((ifm_size - 1) * dim_stride
                        + effective_filter_size - ofm_size)) in
  let total_padding := if total_padding >? 0 then total_padding else 0 in
  let pad_before := Z.quot total_padding 2 in
  let pad_after := total_padding - pad_before in
  (pad_before, pad_after).

(** The reads at the head of the loop body for spatial dimension [i], in
    the order of the source: [ifm_size], [filter_size], [ofm_size],
    [dim_dilation], [dim_stride]. *)
Definition read_spatial_dim (data_format_tf : TensorFormat)
  (first_filter_spatial_dim : Z)
  (input_type filter_type output_type : RankedTensorType)
  (strides dilations : ArrayAttr) (i : Z) : Outcome (Z * Z * Z * Z * Z) :=
  let ifm_dim := GetTensorSpatialDimIndex 4 data_format_tf i in
  let ofm_dim := GetTensorSpatialDimIndex 4 data_format_tf i in
  let filter_dim := to_uint32 (first_filter_spatial_dim + i) in
  ifm_size <- getDimSize input_type ifm_dim ;;
  filter_size <- getDimSize filter_type filter_dim ;;
  ofm_size <- getDimSize output_type ofm_dim ;;
  dilation_attr <- at_index dilations i ;;
  dim_dilation <- cast_IntegerAttr_getInt dilation_attr ;;
  stride_attr <- at_index strides i ;;
  dim_stride <- cast_IntegerAttr_getInt stride_attr ;;
  ret (ifm_size, filter_size, ofm_size, dim_dilation, dim_stride).

(** [getTransposeConv2dPaddingValues].  The result pairs the returned
    [bool] with the attribute assigned to [explicit_padding]; the rewriter
    is used to build that attribute only. *)
Definition getTransposeConv2dPaddingValues
  (tf_pad : Padding) (data_format_tf : TensorFormat)
  (first_filter_spatial_dim : Z)
  (input_type filter_type output_type : RankedTensorType)
  (strides dilations : ArrayAttr) : Outcome (bool * ArrayAttr) :=
  assert (negb (Padding_eqb tf_pad EXPLICIT))
    "tf_pad != tensorflow::Padding::EXPLICIT" ;;;
  computed_paddings <-
    for_each (Zrange 0 2)
      (fun i computed_paddings =>
         sizes <- read_spatial_dim data_format_tf first_filter_spatial_dim
                    input_type filter_type output_type strides dilations i ;;
         let '(ifm_size, filter_size, ofm_size, dim_dilation, dim_stride) :=
           sizes in
         let '(pad_before, pad_after) :=
           transpose_conv_padding ifm_size filter_size ofm_size
             dim_dilation dim_stride in
         ret (push_back computed_paddings pad_before))
      [] ;;
  ret (true, getI64ArrayAttr computed_paddings).

(** [tensorflow::GetWindowedOutputSizeVerboseV2], from
    [tensorflow/core/framework/common_shape_fns.h]: from input size, filter
    size, dilation, stride and padding kind, either an error status
    ([None]) or the output size with the padding before and after. *)
Variable GetWindowedOutputSizeVerboseV2 :
  Z -> Z -> Z -> Z -> Padding -> option (Z * Z * Z).

(** [getPaddingValuesFromPadType], the translator for regular
    convolutions.  The loop state is [None] once the function has returned
    [false]; [explicit_padding] is assigned on success only. *)
Definition getPaddingValuesFromPadType
  (tf_pad : Padding) (data_format_tf : TensorFormat)
  (first_filter_spatial_dim : Z)
  (input_type filter_type : RankedTensorType)
  (strides dilations : ArrayAttr) : Outcome (bool * option ArrayAttr) :=
  assert (negb (Padding_eqb tf_pad EXPLICIT))
    "tf_pad != tensorflow::Padding::EXPLICIT" ;;;
  computed_paddings <-
    for_each (Zrange 0 2)
      (fun i state =>
         match state with
         | None => ret None
         | Some computed_paddings =>
             let ifm_dim := GetTensorSpatialDimIndex 4 data_format_tf i in
             let filter_dim := to_uint32 (first_filter_spatial_dim + i) in
             dilation_attr <- at_index dilations i ;;
             dim_dilation <- cast_IntegerAttr_getInt dilation_attr ;;
             stride_attr <- at_index strides i ;;
             dim_stride <- cast_IntegerAttr_getInt stride_attr ;;
             ifm_size <- getDimSize input_type ifm_dim ;;
             filter_size <- getDimSize filter_type filter_dim ;;
             match GetWindowedOutputSizeVerboseV2 ifm_size filter_size
                     dim_dilation dim_stride tf_pad with
             | None => ret None
             | Some (op_size, pad_before_tf, pad_after_tf) =>
                 let pad_before := pad_before_tf in
                 let pad_after := pad_after_tf in
                 ret (Some (push_back (push_back computed_paddings pad_before)
                              pad_after))
             end
         end)
      (Some []) ;;
  match computed_paddings with
  | None => ret (false, None)
  | Some computed_paddings =>
      ret (true, Some (getI64ArrayAttr computed_paddings))
  end.

End PaddingTranslator.

(** ** Constant introspection *)

(** [value().dyn_cast<ElementsAttr>()]. *)
Definition dyn_cast_ElementsAttr (a : Attribute) : option Attribute :=
  match a with
  | DenseElementsAttr _ _ => Some a
  | _ => None
  end.

(** [getDefiningOpConstElementsAttr]. *)
Definition getDefiningOpConstElementsAttr (input : Value) : option Attribute :=
  match getDefiningOp input with
  | None => None
  | Some (TflQConstOp _ value) => dyn_cast_ElementsAttr value
  | Some (TosaConstOp _ value) => dyn_cast_ElementsAttr value
  | Some _ => None
  end.

(** [getUnquantizedBias]. *)
Definition getUnquantizedBias (op : Operation) (input : Value)
  : Rewrite Value :=
  input_type <-
    lift (deref (dyn_cast_RankedTensorType (getType input))
            "bias input is not a RankedTensorType") ;;
  let input_element_type := getElementType input_type in
  let input_element_qtype := dyn_cast_QuantizedType input_element_type in
  let input_value_attr := getDefiningOpConstElementsAttr input in
  match input_element_qtype, input_value_attr with
  | Some qtype, Some value_attr =>
      let output_type :=
        mkRankedTensorType (getShape input_type)
          (IntegerType (getStorageTypeIntegralWidth qtype)) in
      create (TosaConstOp output_type value_attr)
  | _, _ => ret input
  end.

(** The reading of "the reassembled value does not exceed 2^31 - 1 in
    magnitude" for a stored (upper, lower) pair. *)
Definition magnitude_within_int31 (p : Z * Z) : Prop :=
  Z.abs (reassemble (fst p) (snd p)) <= 2 ^ 31 - 1.

(** The reading that holds of every stored pair: the reassembled value is
    an [int32_t]. *)
Definition reassembles_to_int32 (p : Z * Z) : Prop :=
  in_int32 (reassemble (fst p) (snd p)).

(** The precondition of [buildRescaleFromInt32]: the value has a ranked
    tensor type whose element type is the 32-bit integer type. *)
Definition has_i32_element_type (v : Value) : bool :=
  match getType v with
  | Some (Ranked t) =>
      match getElementType t with
      | IntegerType w => w =? 32
      | _ => false
      end
  | _ => false
  end.

(** The padding of one spatial dimension as the specification words it,
    over unbounded integers: [(pad_before, pad_after)].  The arguments come
    in the order of [transpose_conv_padding]. *)
Definition spec_transpose_conv_padding
  (input_size filter_size output_size dilation stride : Z) : Z * Z :=
  let effective_filter_size := (filter_size - 1) * dilation + 1 in
  let total_padding :=
    Z.max 0 ((input_size - 1) * stride + effective_filter_size - output_size) in
  let pad_before := total_padding / 2 in
  let pad_after := total_padding - pad_before in
  (pad_before, pad_after).

(** The two quantities the source keeps in an [int] are representable in
    one. *)
Definition padding_fits_int (input_size filter_size output_size
  dilation stride : Z) : Prop :=
  in_int32 ((filter_size - 1) * dilation + 1)
  /\ in_int32 ((input_size - 1) * stride
               + ((filter_size - 1) * dilation + 1) - output_size).

(** ** Concrete inputs on which the helpers are run below *)

(** A plain fixed-point quantizer standing in for the
    [computeMultiplierAndShift] parameter: the scale times
    [2^(scale_width - 1)], rounded, with shift [scale_width - 1]. *)
Definition fixed_point_quantizer (scale : double) (scale_width : Z) : Z * Z :=
  (Double.llround (scale * Double.of_int (2 ^ (scale_width - 1)))%float,
   scale_width - 1).

Definition int8_qtype (scale : double) (zero_point : Z) : UniformQuantizedType :=
  mkUniformQuantizedType true 8 scale zero_point (-128) 127.

Definition int8_per_axis_qtype (scales : list double)
  : UniformQuantizedPerAxisType :=
  mkUniformQuantizedPerAxisType true 8 scales (map (fun _ => 0) scales) 0
    (-127) 127.

Definition i32_tensor (shape : list Z) : RankedTensorType :=
  mkRankedTensorType shape (IntegerType 32).

Definition empty_host : Host := mkHost [] [].

(** ** Constant emitters *)

(** [getTosaConstTensorSingleI32]: a rank-0 constant. *)
Definition getTosaConstTensorSingleI32 (op : Operation) (val : Z)
  : Rewrite Value :=
  let const_type := mkRankedTensorType [] (IntegerType 32) in
  let const_attr := DenseElementsAttr const_type [val] in
  create (TosaConstOp const_type const_attr).

(** [get1DConstTensor<tosa::ConstOp, T1>] for a native integer type [T1] of
    [sizeof(T1) * 8 = width] bits (the instantiations at [int32_t] and
    [int64_t]).  The length of the array becomes the one dimension through
    [static_cast<int32_t>]. *)
Definition get1DConstTensor (width : Z) (op : Operation) (arr : list Z)
  : Rewrite Value :=
  let const_type :=
    mkRankedTensorType [to_int32 (Z.of_nat (List.length arr))]
      (IntegerType width) in
  let const_attr := DenseElementsAttr const_type arr in
  create (TosaConstOp const_type const_attr).

(** ** Vector extraction *)

Section ConstantMatching.

(** The attribute a defining operation folds to when it carries the
    [ConstantLike] trait, [None] when it does not: the part of MLIR's
    [m_Constant] matcher that depends on the operation definitions. *)
Variable constant_like_fold : Operation -> option Attribute.

(** [matchPattern(val, m_Constant(&elems))] with [elems] an
    [ElementsAttr]: a value without defining operation never matches, and
    the folded attribute must be an [ElementsAttr]. *)
Definition matchPattern_m_Constant (val : Value) : option Attribute :=
  match getDefiningOp val with
  | None => None
  | Some op =>
      match constant_like_fold op with
      | None => None
      | Some attr => dyn_cast_ElementsAttr attr
      end
  end.

(** The elements of an [ElementsAttr] with its element type, as
    [getValues<IntegerAttr>()] walks them. *)
Definition elements_of (elems : Attribute) : ElementType * list Z :=
  match elems with
  | DenseElementsAttr ty data => (getElementType ty, data)
  | _ => (F32Type, [])
  end.

(** [getVectorFromValue32].  The result pairs the returned [int] with the
    contents of the reference parameter [vec] after the call.  Each element
    is cast to [IntegerAttr], which is asserted, and its 64-bit value is
    narrowed by [push_back] into the vector of [int32_t]. *)
Definition getVectorFromValue32 (val : Value) (vec : list Z)
  : Outcome (Z * list Z) :=
  let i := 0 in
  match matchPattern_m_Constant val with
  | None => ret (-1, vec)
  | Some elems =>
      let '(element_type, data) := elements_of elems in
      for_each data
        (fun idx '(i, vec) =>
           assert (match element_type with
                   | IntegerType _ => true
                   | _ => false
                   end) "cast<IntegerAttr> on another attribute" ;;;
           ret (to_int32 (i + 1), push_back vec (to_int32 idx)))
        (i, vec)
  end.

End ConstantMatching.

(** ** Padding translators: explicit padding and regular convolution *)

Section ExplicitPadding.

Variable GetTensorSpatialDimIndex : Z -> TensorFormat -> Z -> Z.

(** [getPaddingValuesFromExplicitPadAttr]. *)
Definition getPaddingValuesFromExplicitPadAttr (explicit_pad : ArrayAttr)
  (data_format_tf : TensorFormat) : Outcome ArrayAttr :=
  computed_paddings <-
    for_each (Zrange 0 2)
      (fun i computed_paddings =>
         let dim := GetTensorSpatialDimIndex 4 data_format_tf i in
         before_attr <- at_index explicit_pad (to_uint32 (dim * 2)) ;;
         pad_before <- cast_IntegerAttr_getInt before_attr ;;
         after_attr <- at_index explicit_pad (to_uint32 (dim * 2 + 1)) ;;
         pad_after <- cast_IntegerAttr_getInt after_attr ;;
         ret (push_back (push_back computed_paddings pad_before) pad_after))
      [] ;;
  ret (getI64ArrayAttr computed_paddings).

(** The reads at the head of the loop body of [getPaddingValuesFromPadType]
    for spatial dimension [i], in the order of the source: [dim_dilation],
    [dim_stride], then the two sizes passed to
    [GetWindowedOutputSizeVerboseV2]. *)
Definition read_window_dim (data_format_tf : TensorFormat)
  (first_filter_spatial_dim : Z) (input_type filter_type : RankedTensorType)
  (strides dilations : ArrayAttr) (i : Z) : Outcome (Z * Z * Z * Z) :=
  let ifm_dim := GetTensorSpatialDimIndex 4 data_format_tf i in
  let filter_dim := to_uint32 (first_filter_spatial_dim + i) in
  dilation_attr <- at_index dilations i ;;
  dim_dilation <- cast_IntegerAttr_getInt dilation_attr ;;
  stride_attr <- at_index strides i ;;
  dim_stride <- cast_IntegerAttr_getInt stride_attr ;;
  ifm_size <- getDimSize input_type ifm_dim ;;
  filter_size <- getDimSize filter_type filter_dim ;;
  ret (ifm_size, filter_size, dim_dilation, dim_stride).

End ExplicitPadding.

(** A stand-in for the [constant_like_fold] parameter, used only to run the
    extraction on concrete inputs: [tosa.const] is the one constant-like
    operation, and it folds to its [value] attribute. *)
Definition fold_tosa_const (op : Operation) : option Attribute :=
  match op with
  | TosaConstOp _ value => Some value
  | _ => None
  end.

(** * Properties *)

(** ** Machine integers *)

Lemma to_int16_range (x : Z) : in_int16 (to_int16 x).
Proof.
  unfold in_int16, to_int16, wrap.
  change (2 ^ (16 - 1)) with 32768. change (2 ^ 16) with 65536.
  pose proof (Z.mod_pos_bound (x + 32768) 65536 ltac:(lia)). lia.
Qed.

Lemma to_int16_id (x : Z) : in_int16 x -> to_int16 x = x.
Proof.
  unfold in_int16, to_int16, wrap. intros H.
  change (2 ^ (16 - 1)) with 32768. change (2 ^ 16) with 65536.
  rewrite Z.mod_small by lia. lia.
Qed.

Lemma to_int32_range (x : Z) : in_int32 (to_int32 x).
Proof.
  unfold in_int32, to_int32, wrap.
  change (2 ^ (32 - 1)) with 2147483648. change (2 ^ 32) with 4294967296.
  change (2 ^ 31) with 2147483648.
  pose proof (Z.mod_pos_bound (x + 2147483648) 4294967296 ltac:(lia)). lia.
Qed.

Lemma to_int32_id (x : Z) : in_int32 x -> to_int32 x = x.
Proof.
  unfold in_int32, to_int32, wrap.
  change (2 ^ (32 - 1)) with 2147483648. change (2 ^ 32) with 4294967296.
  change (2 ^ 31) with 2147483648. intros H.
  rewrite Z.mod_small by lia. lia.
Qed.

Lemma to_int64_id (x : Z) : - 2 ^ 63 <= x <= 2 ^ 63 - 1 -> to_int64 x = x.
Proof.
  unfold to_int64, wrap.
  change (2 ^ (64 - 1)) with 9223372036854775808.
  change (2 ^ 64) with 18446744073709551616.
  change (2 ^ 63) with 9223372036854775808. intros H.
  rewrite Z.mod_small by lia. lia.
Qed.

Lemma to_uint32_id (x : Z) : 0 <= x < 2 ^ 32 -> to_uint32 x = x.
Proof. intros H. unfold to_uint32. now apply Z.mod_small. Qed.

Lemma clamp_to_int16_range (x : Z) : in_int16 (clamp_to_int16 x).
Proof. apply to_int16_range. Qed.

(** Inside the range the clamp is the identity, below it gives the lower
    bound and above it the upper bound: the narrowing cast never wraps. *)
Lemma clamp_to_int16_spec (x : Z) :
  clamp_to_int16 x = Z.min (Z.max x (-32768)) 32767.
Proof.
  unfold clamp_to_int16, MachineInt.std_min, MachineInt.std_max.
  destruct (x <? -32768) eqn:E1.
  - apply Z.ltb_lt in E1. change (32767 <? -32768) with false. cbv iota.
    rewrite to_int16_id by (unfold in_int16; lia). lia.
  - apply Z.ltb_ge in E1.
    destruct (32767 <? x) eqn:E2.
    + apply Z.ltb_lt in E2. rewrite to_int16_id by (unfold in_int16; lia). lia.
    + apply Z.ltb_ge in E2. rewrite to_int16_id by (unfold in_int16; lia). lia.
Qed.

(** ** Doubles: the roundings on a few values *)

Example llround_halfway :
  Double.llround 2.5 = 3 /\ Double.llround (-2.5) = -3
  /\ Double.llround 0.5 = 1 /\ Double.llround (-0.5) = -1
  /\ Double.llround 0.25 = 0 /\ Double.llround 1e9 = 1000000000.
Proof. vm_compute. repeat split; reflexivity. Qed.

Example round_halfway :
  Double.round 2.5 = 3%float /\ Double.round (-2.5) = (-3)%float
  /\ Double.round 1.25 = 1%float /\ Double.round 4 = 4%float.
Proof. vm_compute. repeat split; reflexivity. Qed.

Example llround_unrepresentable :
  Double.llround nan = INT64_MIN /\ Double.llround infinity = INT64_MIN
  /\ Double.llround 1180591620717411303424 = INT64_MIN.
Proof. vm_compute. repeat split; reflexivity. Qed.

Example of_int_exact :
  Double.of_int (-256) = (-256)%float
  /\ Double.of_int (2 ^ 31) = 2147483648%float.
Proof. vm_compute. split; reflexivity. Qed.

Example std_min_max_nan :
  Double.std_min (Double.std_max nan (-1)) 1 = nan
  /\ Double.std_min (Double.std_max 7 (-1)) 1 = 1%float
  /\ Double.std_min (Double.std_max (-7) (-1)) 1 = (-1)%float.
Proof. vm_compute. repeat split; reflexivity. Qed.

(** ** Loops that fill a table *)

Lemma fold_push_back {A B} (f : A -> B) (l : list A) (acc : list B) :
  fold_left (fun vec i => push_back vec (f i)) l acc = acc ++ map f l.
Proof.
  revert acc. induction l as [|x l IH]; intros acc; cbn.
  - now rewrite app_nil_r.
  - rewrite IH. unfold push_back. now rewrite <- app_assoc.
Qed.

Lemma Zrange_length (lo : Z) (n : nat) : List.length (Zrange lo n) = n.
Proof. unfold Zrange. now rewrite length_map, length_seq. Qed.

Lemma table8_vec_map input_scale input_zp output_scale output_zp func :
  table8_vec input_scale input_zp output_scale output_zp func
  = map (table8_entry input_scale input_zp output_scale output_zp func)
      (Zrange (-256) 513).
Proof. unfold table8_vec. now rewrite fold_push_back. Qed.

Lemma table16_vec_map func min max :
  table16_vec func min max
  = map (table16_entry func min ((max - min) / 512)%float
           (((max - min) / 512) / 2)%float) (Zrange 0 513)
    ++ [clamp_to_int16 (to_int32 (Double.llround (func max * 32768)%float))].
Proof. unfold table16_vec. now rewrite fold_push_back. Qed.

(** Every position of the two arrays is written exactly once, in order:
    the arrays are the two projections of the loop body over the index
    range, whatever the arrays held before. *)
Lemma fill_arrays_map (g : Z -> Z * Z) :
  fold_left
    (fun '(upper_table_array, lower_table_array) i =>
       let entry := g i in
       (array_set upper_table_array (Z.to_nat (i + 256)) (fst entry),
        array_set lower_table_array (Z.to_nat (i + 256)) (snd entry)))
    (Zrange (-256) 513) (repeat 0 513, repeat 0 513)
  = (map (fun i => fst (g i)) (Zrange (-256) 513),
     map (fun i => snd (g i)) (Zrange (-256) 513)).
Proof. vm_compute. reflexivity. Qed.

Lemma table32_arrays_map input_scale input_zp func :
  table32_arrays input_scale input_zp func
  = (map (fun i => fst (table32_entry input_scale input_zp func i))
       (Zrange (-256) 513),
     map (fun i => snd (table32_entry input_scale input_zp func i))
       (Zrange (-256) 513)).
Proof. unfold table32_arrays. apply fill_arrays_map. Qed.

Lemma combine_map_fst_snd {A B C} (f : A -> B * C) (l : list A) :
  combine (map (fun i => fst (f i)) l) (map (fun i => snd (f i)) l) = map f l.
Proof.
  induction l as [|x l IH]; cbn; [reflexivity|].
  rewrite IH. now destruct (f x).
Qed.

(** ** Lookup tables: number of entries *)

Lemma table8_vec_length input_scale input_zp output_scale output_zp func :
  List.length (table8_vec input_scale input_zp output_scale output_zp func)
  = 513%nat.
Proof. rewrite table8_vec_map, length_map. apply Zrange_length. Qed.

Lemma table16_vec_length func min max :
  List.length (table16_vec func min max) = 514%nat.
Proof.
  rewrite table16_vec_map, length_app, length_map, Zrange_length.
  reflexivity.
Qed.

Lemma table32_arrays_length input_scale input_zp func :
  List.length (fst (table32_arrays input_scale input_zp func)) = 513%nat
  /\ List.length (snd (table32_arrays input_scale input_zp func)) = 513%nat.
Proof.
  rewrite table32_arrays_map. cbn [fst snd].
  rewrite !length_map, Zrange_length. split; reflexivity.
Qed.

(** The 8-bit builder creates one constant, of 513 entries. *)
Theorem getTosaConst8bitTable_entries
  op input_scale input_zp output_scale output_zp func (h : Host) :
  exists v h' table,
    getTosaConst8bitTable op input_scale input_zp output_scale output_zp
      func h = Returned (v, h')
    /\ table_of v = Some table
    /\ List.length table = 513%nat.
Proof.
  eexists _, _, _. split; [reflexivity|]. split; [reflexivity|].
  apply table8_vec_length.
Qed.

(** The 32-bit builder creates two constants, of 513 entries each. *)
Theorem getTosaConst32bitTable_entries
  op input_scale input_zp func (h : Host) :
  exists upper_const lower_const h' upper lower,
    getTosaConst32bitTable op input_scale input_zp func h
    = Returned ((upper_const, lower_const), h')
    /\ table_of upper_const = Some upper
    /\ table_of lower_const = Some lower
    /\ List.length upper = 513%nat
    /\ List.length lower = 513%nat.
Proof.
  unfold getTosaConst32bitTable.
  pose proof (table32_arrays_length input_scale input_zp func) as [Hu Hl].
  destruct (table32_arrays input_scale input_zp func) as [upper lower].
  exists (OpResult (List.length (created h))
            (TosaConstOp table_const_type
               (DenseElementsAttr table_storage_type upper))).
  eexists _, _, upper, lower.
  split; [reflexivity|]. split; [reflexivity|]. split; [reflexivity|].
  split; assumption.
Qed.

(** C1 (as the code has it): for every sampling function and every domain
    the 16-bit builder returns a constant whose dense attribute is declared
    with shape [513] but is built from 514 entries: the loop runs for
    i = 0..512 inclusive and the entry for [max] is pushed after it.  The
    8-bit and the 32-bit builders do give 513 entries (the two theorems
    above). *)
Theorem getTosaConst16bitTable_entries
  op func min max (h : Host) :
  exists v h' table,
    getTosaConst16bitTable op func min max h = Returned (v, h')
    /\ v = OpResult (List.length (created h))
             (TosaConstOp table_const_type
                (DenseElementsAttr table_storage_type table))
    /\ getShape table_storage_type = [513]
    /\ table_of v = Some table
    /\ List.length table = 514%nat.
Proof.
  eexists _, _, _. split; [reflexivity|]. split; [reflexivity|].
  split; [reflexivity|]. split; [reflexivity|].
  apply table16_vec_length.
Qed.

(** The identity sampled over [0, 1]: 514 entries, the last two being the
    entry of the loop's final iteration and the entry pushed for [max]. *)
Example table16_identity :
  List.length (table16_vec (fun x => x) 0 1) = 514%nat
  /\ firstn 3 (table16_vec (fun x => x) 0 1) = [0; 64; 128]
  /\ skipn 511 (table16_vec (fun x => x) 0 1) = [32704; 32767; 32767].
Proof. vm_compute. repeat split; reflexivity. Qed.

(** ** Lookup tables: range of the entries *)

Lemma table8_vec_in_int16 input_scale input_zp output_scale output_zp func :
  Forall in_int16
    (table8_vec input_scale input_zp output_scale output_zp func).
Proof.
  rewrite table8_vec_map. apply Forall_map, Forall_forall.
  intros i _. apply clamp_to_int16_range.
Qed.

Lemma table16_vec_in_int16 func min max :
  Forall in_int16 (table16_vec func min max).
Proof.
  rewrite table16_vec_map. apply Forall_app. split.
  - apply Forall_map, Forall_forall. intros i _. apply clamp_to_int16_range.
  - apply Forall_cons; [apply clamp_to_int16_range | apply Forall_nil].
Qed.

(** C5: whatever the sampling function returns, every entry of the
    constants created by the 8-bit and by the 16-bit table builder lies in
    [-32768, 32767]. *)
Theorem table_entries_within_int16
  op input_scale input_zp output_scale output_zp func min max (h : Host) :
  (exists v h' table,
      getTosaConst8bitTable op input_scale input_zp output_scale output_zp
        func h = Returned (v, h')
      /\ table_of v = Some table
      /\ Forall in_int16 table)
  /\ (exists v h' table,
         getTosaConst16bitTable op func min max h = Returned (v, h')
         /\ table_of v = Some table
         /\ Forall in_int16 table).
Proof.
  split; eexists _, _, _; (split; [reflexivity|]); (split; [reflexivity|]).
  - apply table8_vec_in_int16.
  - apply table16_vec_in_int16.
Qed.

(** A function that returns 1e9 everywhere: with unit scales every 8-bit
    entry saturates at 32767, and so does every 16-bit entry. *)
Example table8_large_function :
  table8_vec 1 0 1 0 (fun _ => 1e9%float) = repeat 32767 513.
Proof. vm_compute. reflexivity. Qed.

(** With an output scale of 2^-12 the rescaled value 4.096e12 no longer
    fits the [int32_t] it is stored in before the clamp: it wraps to a
    negative number and every entry is the lower bound, still in range. *)
Example table8_large_function_small_scale :
  Double.llround (1e9 / 0.000244140625) = 4096000000000
  /\ to_int32 4096000000000 = -1398800384
  /\ table8_vec 1 0 0.000244140625 0 (fun _ => 1e9%float)
     = repeat (-32768) 513.
Proof. vm_compute. repeat split; reflexivity. Qed.

Example table16_large_function :
  table16_vec (fun _ => 1e9%float) 0 1 = repeat 32767 514.
Proof. vm_compute. reflexivity. Qed.

(** ** The 32-bit table: splitting and reassembling *)

Lemma land_0xFFFF (x : Z) : Z.land x 0xFFFF = x mod 65536.
Proof. change 0xFFFF with (Z.ones 16). now rewrite Z.land_ones by lia. Qed.

Lemma to_int16_mod (x : Z) : to_int16 (x mod 65536) = to_int16 x.
Proof.
  unfold to_int16, wrap.
  change (2 ^ (16 - 1)) with 32768. change (2 ^ 16) with 65536.
  now rewrite Zplus_mod_idemp_l.
Qed.

Lemma table32_upper_stored (r : Z) :
  to_int16 (table32_upper r) = to_int16 (Z.shiftr r 16).
Proof.
  unfold table32_upper. rewrite land_0xFFFF.
  rewrite to_int32_id.
  - apply to_int16_mod.
  - pose proof (Z.mod_pos_bound (Z.shiftr r 16) 65536 ltac:(lia)).
    unfold in_int32. lia.
Qed.

Lemma table32_lower_stored (r : Z) :
  to_int16 (table32_lower r) = r mod 65536 - 32768.
Proof.
  unfold table32_lower. rewrite land_0xFFFF.
  change 0x8000 with 32768.
  pose proof (Z.mod_pos_bound r 65536 ltac:(lia)).
  rewrite to_int32_id by (unfold in_int32; lia).
  apply to_int16_id. unfold in_int16. lia.
Qed.

(** Whatever 64-bit integer is split, the stored pair reassembles to an
    [int32_t]. *)
Lemma split_reassembles_to_int32 (r : Z) :
  in_int32 (reassemble (to_int16 (table32_upper r))
                       (to_int16 (table32_lower r))).
Proof.
  rewrite table32_lower_stored.
  pose proof (to_int16_range (table32_upper r)) as Hu.
  pose proof (Z.mod_pos_bound r 65536 ltac:(lia)) as Hl.
  unfold in_int16 in Hu. unfold in_int32, reassemble.
  change 0x8000 with 32768. change (2 ^ 16) with 65536.
  change (2 ^ 31) with 2147483648. lia.
Qed.

(** A value that is an [int32_t] is recovered exactly from its pair. *)
Lemma split_reassemble_roundtrip (r : Z) :
  in_int32 r ->
  reassemble (to_int16 (table32_upper r)) (to_int16 (table32_lower r)) = r.
Proof.
  unfold in_int32. change (2 ^ 31) with 2147483648. intros Hr.
  rewrite table32_upper_stored, table32_lower_stored.
  rewrite Z.shiftr_div_pow2 by lia. change (2 ^ 16) with 65536.
  rewrite to_int16_id.
  - unfold reassemble. change 0x8000 with 32768. change (2 ^ 16) with 65536.
    pose proof (Z.div_mod r 65536 ltac:(lia)). lia.
  - unfold in_int16.
    pose proof (Z.div_le_mono (-2147483648) r 65536 ltac:(lia) ltac:(lia)).
    pose proof (Z.div_le_mono r 2147483647 65536 ltac:(lia) ltac:(lia)).
    change (-2147483648 / 65536) with (-32768) in *.
    change (2147483647 / 65536) with 32767 in *. lia.
Qed.

Lemma table32_pairs_reassemble_to_int32 input_scale input_zp func :
  Forall reassembles_to_int32
    (combine (fst (table32_arrays input_scale input_zp func))
             (snd (table32_arrays input_scale input_zp func))).
Proof.
  rewrite table32_arrays_map. cbn [fst snd].
  rewrite combine_map_fst_snd. apply Forall_map, Forall_forall.
  intros i _. unfold reassembles_to_int32, table32_entry. cbn [fst snd].
  apply split_reassembles_to_int32.
Qed.

(** C4 (as the code has it): the pair stored at every position of the two
    constants reassembles to a value of the signed 32-bit range
    [-2^31, 2^31 - 1]; a transformed value of exactly +1.0 is rescaled to
    2^31, replaced by 2^31 - 1, and stored as the pair that reassembles to
    2^31 - 1. *)
Theorem table32_reassembled_within_int32
  op input_scale input_zp func (h : Host) :
  (exists upper_const lower_const h' upper lower,
      getTosaConst32bitTable op input_scale input_zp func h
      = Returned ((upper_const, lower_const), h')
      /\ table_of upper_const = Some upper
      /\ table_of lower_const = Some lower
      /\ Forall reassembles_to_int32 (combine upper lower))
  /\ Double.to_int64 (Double.round (1 * output_inv_scale)%float) = 2 ^ 31
  /\ table32_rescaled 1 = 2 ^ 31 - 1
  /\ reassemble (to_int16 (table32_upper (table32_rescaled 1)))
                (to_int16 (table32_lower (table32_rescaled 1))) = 2 ^ 31 - 1.
Proof.
  split.
  - unfold getTosaConst32bitTable.
    pose proof (table32_pairs_reassemble_to_int32 input_scale input_zp func)
      as Hall.
    destruct (table32_arrays input_scale input_zp func) as [upper lower].
    exists (OpResult (List.length (created h))
              (TosaConstOp table_const_type
                 (DenseElementsAttr table_storage_type upper))).
    eexists _, _, upper, lower.
    split; [reflexivity|]. split; [reflexivity|]. split; [reflexivity|].
    exact Hall.
  - repeat split; vm_compute; reflexivity.
Qed.

(** C4 (as stated) fails: for the constant function -1.0 the first stored
    pair is (-32768, -32768), which reassembles to -2^31, of magnitude
    2^31. *)
Lemma table32_magnitude_counterexample :
  ~ Forall magnitude_within_int31
      (combine (fst (table32_arrays 1 0 (fun _ => (-1)%float)))
               (snd (table32_arrays 1 0 (fun _ => (-1)%float)))).
Proof.
  intros H.
  remember (combine (fst (table32_arrays 1 0 (fun _ => (-1)%float)))
                    (snd (table32_arrays 1 0 (fun _ => (-1)%float)))) as l eqn:E.
  assert (Hhd : hd_error l = Some (-32768, -32768))
    by (subst l; vm_compute; reflexivity).
  destruct l as [|p l]; [discriminate|].
  cbn in Hhd. injection Hhd as ->.
  apply Forall_inv in H. unfold magnitude_within_int31 in H.
  vm_compute in H. apply H. reflexivity.
Qed.

Example table32_minus_one_reassembled :
  reassemble (-32768) (-32768) = - 2 ^ 31.
Proof. reflexivity. Qed.

(** ** Scale policy *)

(** C6: [isScale32] answers true exactly when the storage width of the
    output element type is 8; the scale width chosen from it is 32 then and
    16 for every other storage width. *)
Theorem isScale32_iff_storage_width_8 (q : UniformQuantizedType) :
  (isScale32 q = true <-> uq_storage_width q = 8)
  /\ (isScale32 q = false <-> uq_storage_width q <> 8)
  /\ (if isScale32 q then 32 else 16)
     = (if uq_storage_width q =? 8 then 32 else 16).
Proof.
  unfold isScale32.
  destruct (uq_storage_width q =? 8) eqn:E.
  - apply Z.eqb_eq in E. repeat split; intros; congruence.
  - apply Z.eqb_neq in E. repeat split; intros; congruence.
Qed.

Example isScale32_int16 :
  isScale32 (mkUniformQuantizedType true 16 1 0 (-32768) 32767) = false.
Proof. reflexivity. Qed.

(** ** Rescale builders *)

Section RescaleProperties.

Variable computeMultiplierAndShift : double -> Z -> Z * Z.

Lemma has_i32_element_type_assert (v : Value) :
  match dyn_cast_RankedTensorType (getType v) with
  | Some t => isInteger 32 (getElementType t)
  | None => false
  end = has_i32_element_type v.
Proof.
  unfold has_i32_element_type, dyn_cast_RankedTensorType, isInteger.
  destruct (getType v) as [[t|e]|]; reflexivity.
Qed.

(** C7: [buildRescaleFromInt32] aborts on its assertion, creating
    nothing, unless the input has a ranked tensor type with element type
    i32; when it has, the call creates one rescale operation with input
    zero point 0, double rounding and the 32-bit scale path (and the
    multiplier and shift computed at width 32). *)
Theorem buildRescaleFromInt32_spec
  (op : Operation) (output_type : RankedTensorType) (input_val : Value)
  (output_scale : double) (output_zp : Z) (h : Host) :
  buildRescaleFromInt32 computeMultiplierAndShift op output_type input_val
    output_scale output_zp h
  = if has_i32_element_type input_val then
      let rescale :=
        TosaRescaleOp output_type input_val 0 (to_int32 output_zp)
          [fst (computeMultiplierAndShift output_scale 32)]
          [snd (computeMultiplierAndShift output_scale 32)]
          true true false in
      Returned (OpResult (List.length (created h)) rescale,
                mkHost (created h ++ [rescale]) (diagnostics h))
    else Aborted "expected rescale input element type to be i32".
Proof.
  unfold buildRescaleFromInt32. cbn [bind Monad_Rewrite].
  rewrite has_i32_element_type_assert.
  destruct (has_i32_element_type input_val); cbn; [|reflexivity].
  unfold buildRescale.
  destruct (computeMultiplierAndShift output_scale 32) as [m s].
  reflexivity.
Qed.

Lemma Zrange_cons (lo : Z) (n : nat) :
  Zrange lo (S n) = lo :: Zrange (lo + 1) n.
Proof.
  unfold Zrange. cbn [seq map]. rewrite Z.add_0_r. f_equal.
  rewrite <- seq_shift, map_map. apply map_ext. intros k. lia.
Qed.

Lemma at_index_skipn {A} (l : list A) (k : nat) (x : A) (rest : list A) :
  skipn k l = x :: rest -> at_index l (Z.of_nat k) = Returned x.
Proof.
  intros E. unfold at_index.
  assert (Hn : nth_error l k = Some x).
  { rewrite <- (firstn_skipn k l) at 1.
    assert (Hlen : List.length (firstn k l) = k).
    { apply firstn_length_le.
      destruct (Nat.le_gt_cases k (List.length l)) as [|Hgt]; [assumption|].
      rewrite skipn_all2 in E by lia. discriminate. }
    rewrite nth_error_app2 by lia. rewrite Hlen, Nat.sub_diag, E. reflexivity. }
  assert (Hlt : (k < List.length l)%nat)
    by (apply nth_error_Some; congruence).
  replace ((0 <=? Z.of_nat k) && (Z.of_nat k <? Z.of_nat (List.length l)))
    with true.
  - rewrite Nat2Z.id, Hn. reflexivity.
  - symmetry. apply andb_true_iff. split; [apply Z.leb_le|apply Z.ltb_lt]; lia.
Qed.

(** The per-channel loop, started at channel [lo] with [n] channels to go:
    it succeeds when the weight type carries enough scales, and appends one
    pair per channel, in channel order. *)
Lemma conv_channel_loop_from
  (input_scale output_scale : double) (scale_width : Z)
  (weight_scale_arr : list double) (n lo : nat) (ms ss : list Z) :
  (lo + n <= List.length weight_scale_arr)%nat ->
  let quantize weight_scale :=
    computeMultiplierAndShift
      ((input_scale * weight_scale) / output_scale)%float scale_width in
  let channels := firstn n (skipn lo weight_scale_arr) in
  for_each (Zrange (Z.of_nat lo) n)
    (fun oc '(multiplier_arr, shift_arr) =>
       weight_scale <- at_index weight_scale_arr oc ;;
       let op_channel_scale :=
         ((input_scale * weight_scale) / output_scale)%float in
       let '(multiplier, shift) :=
         computeMultiplierAndShift op_channel_scale scale_width in
       ret (push_back multiplier_arr multiplier, push_back shift_arr shift))
    (ms, ss)
  = Returned (ms ++ map (fun w => fst (quantize w)) channels,
              ss ++ map (fun w => snd (quantize w)) channels).
Proof.
  intros Hlen quantize channels. subst channels.
  revert lo ms ss Hlen. induction n as [|n IH]; intros lo ms ss Hlen.
  - cbn. now rewrite !app_nil_r.
  - rewrite Zrange_cons. cbn [for_each].
    destruct (skipn lo weight_scale_arr) as [|x rest] eqn:E.
    { apply (f_equal (@List.length _)) in E. rewrite length_skipn in E.
      cbn in E. lia. }
    rewrite (at_index_skipn _ _ _ _ E). cbn [bind Monad_Outcome].
    assert (Hrest : skipn (S lo) weight_scale_arr = rest).
    { change (S lo) with (1 + lo)%nat. rewrite <- skipn_skipn, E. reflexivity. }
    replace (Z.of_nat lo + 1) with (Z.of_nat (S lo)) by lia.
    subst quantize. cbn beta.
    destruct (computeMultiplierAndShift
                ((input_scale * x) / output_scale)%float scale_width)
      as [m s] eqn:Eq.
    cbn [ret Monad_Outcome].
    rewrite IH by lia. rewrite Hrest. cbn [firstn map].
    rewrite Eq. cbn [fst snd]. unfold push_back.
    now rewrite <- !app_assoc.
Qed.

Lemma conv_channel_loop_spec
  (input_scale output_scale : double) (scale_width : Z)
  (weight_scale_arr : list double) (N : Z) :
  0 <= N <= Z.of_nat (List.length weight_scale_arr) ->
  let quantize weight_scale :=
    computeMultiplierAndShift
      ((input_scale * weight_scale) / output_scale)%float scale_width in
  let channels := firstn (Z.to_nat N) weight_scale_arr in
  conv_channel_loop computeMultiplierAndShift input_scale output_scale
    scale_width weight_scale_arr N
  = Returned (map (fun w => fst (quantize w)) channels,
              map (fun w => snd (quantize w)) channels).
Proof.
  intros HN quantize channels. unfold conv_channel_loop.
  pose proof (conv_channel_loop_from input_scale output_scale scale_width
                weight_scale_arr (Z.to_nat N) 0 [] []) as H.
  cbn [Z.of_nat skipn app] in H. apply H. lia.
Qed.

Lemma at_index_last {A} (dims : list A) (x : A) :
  at_index (dims ++ [x]) (Z.of_nat (List.length (dims ++ [x])) - 1)
  = Returned x.
Proof.
  rewrite length_app. cbn [List.length].
  replace (Z.of_nat (List.length dims + 1) - 1)
    with (Z.of_nat (List.length dims)) by lia.
  apply at_index_skipn with (rest := []).
  rewrite skipn_app, skipn_all, Nat.sub_diag. reflexivity.
Qed.

(** [buildRescaleToInt32] on a ranked tensor: the output keeps the shape
    and gets element type i32, the output zero point is 0, rounding is
    single and the scale path is the 32-bit one. *)
Lemma buildRescaleToInt32_spec
  (op : Operation) (input_val : Value) (input_scale : double)
  (input_zp : Z) (h : Host) (input_type : RankedTensorType) :
  dyn_cast_RankedTensorType (getType input_val) = Some input_type ->
  let rescale :=
    TosaRescaleOp (mkRankedTensorType (getShape input_type) (IntegerType 32))
      input_val (to_int32 input_zp) 0
      [fst (computeMultiplierAndShift input_scale 32)]
      [snd (computeMultiplierAndShift input_scale 32)]
      true false false in
  buildRescaleToInt32 computeMultiplierAndShift op input_val input_scale
    input_zp h
  = Returned (OpResult (List.length (created h)) rescale,
              mkHost (created h ++ [rescale]) (diagnostics h)).
Proof.
  intros Hty. cbv zeta. unfold buildRescaleToInt32. rewrite Hty.
  cbn [deref lift bind Monad_Rewrite]. unfold buildRescale.
  destruct (computeMultiplierAndShift input_scale 32) as [m s]. reflexivity.
Qed.

(** C2: with uniform quantized input and output types, a per-axis
    quantized weight type, an output shape whose trailing dimension is [N]
    and a weight type that carries a scale for each of the [N] channels
    (the scales being held in a [SmallVector], fewer than 2^32 of them),
    [buildRescaleOpConvOutput] creates one rescale operation with [N]
    multipliers and [N] shifts, the pair of channel [c] being computed from
    [(input_scale * weight_scale[c]) / output_scale], and with the
    per-channel flag set. *)
Theorem buildRescaleOpConvOutput_per_channel
  (op : Operation) (conv_val : Value)
  (input_type weight_type output_type : RankedTensorType) (h : Host)
  (input_q output_q : UniformQuantizedType)
  (weight_q : UniformQuantizedPerAxisType) (dims : list Z) (N : Z) :
  getElementType input_type = UniformQuantized input_q ->
  getElementType output_type = UniformQuantized output_q ->
  getElementType weight_type = UniformQuantizedPerAxis weight_q ->
  getShape output_type = dims ++ [N] ->
  0 <= N <= Z.of_nat (List.length (pa_scales weight_q)) ->
  Z.of_nat (List.length (pa_scales weight_q)) < 2 ^ 32 ->
  exists multiplier shift,
    let rescale :=
      TosaRescaleOp output_type conv_val 0 (to_int32 (uq_zero_point output_q))
        multiplier shift (isScale32 output_q) true true in
    buildRescaleOpConvOutput computeMultiplierAndShift op conv_val
      input_type weight_type output_type h
    = Returned (OpResult (List.length (created h)) rescale,
                mkHost (created h ++ [rescale]) (diagnostics h))
    /\ Z.of_nat (List.length multiplier) = N
    /\ Z.of_nat (List.length shift) = N
    /\ combine multiplier shift
       = map (fun weight_scale =>
                computeMultiplierAndShift
                  ((uq_scale input_q * weight_scale) / uq_scale output_q)%float
                  (if isScale32 output_q then 32 else 16))
           (firstn (Z.to_nat N) (pa_scales weight_q)).
Proof.
  intros Hin Hout Hw Hshape HN Hscales.
  set (quantize := fun weight_scale =>
         computeMultiplierAndShift
           ((uq_scale input_q * weight_scale) / uq_scale output_q)%float
           (if isScale32 output_q then 32 else 16)).
  set (channels := firstn (Z.to_nat N) (pa_scales weight_q)).
  exists (map (fun w => fst (quantize w)) channels),
         (map (fun w => snd (quantize w)) channels).
  cbv zeta. split; [|split; [|split]].
  - unfold buildRescaleOpConvOutput.
    rewrite Hin, Hout, Hw, Hshape. cbn [dyn_cast_UniformQuantizedType
      dyn_cast_UniformQuantizedPerAxisType deref lift bind Monad_Rewrite].
    rewrite at_index_last. cbn [lift].
    rewrite to_uint32_id by lia.
    rewrite conv_channel_loop_spec by lia.
    reflexivity.
  - rewrite length_map. subst channels. rewrite firstn_length_le by lia. lia.
  - rewrite length_map. subst channels. rewrite firstn_length_le by lia. lia.
  - rewrite combine_map_fst_snd. reflexivity.
Qed.

(** C8: with uniform quantized input and output types and a weight element
    type that is neither uniform per-tensor nor uniform per-axis quantized,
    [buildRescaleOpConvOutput] emits one error on [op], creates no
    operation and returns the null value. *)
Theorem buildRescaleOpConvOutput_unknown_weight_type
  (op : Operation) (conv_val : Value)
  (input_type weight_type output_type : RankedTensorType) (h : Host)
  (input_q output_q : UniformQuantizedType) :
  getElementType input_type = UniformQuantized input_q ->
  getElementType output_type = UniformQuantized output_q ->
  dyn_cast_UniformQuantizedType (getElementType weight_type) = None ->
  dyn_cast_UniformQuantizedPerAxisType (getElementType weight_type) = None ->
  buildRescaleOpConvOutput computeMultiplierAndShift op conv_val
    input_type weight_type output_type h
  = Returned (NullValue,
              mkHost (created h)
                (diagnostics h
                 ++ [(op, "buildConvRescaleOp: unknown weight quantized type"%string)])).
Proof.
  intros Hin Hout Hw1 Hw2. unfold buildRescaleOpConvOutput.
  rewrite Hin, Hout, Hw1, Hw2. reflexivity.
Qed.

(** X11: with uniform quantized input, output and weight types the
    builder takes the per-tensor branch: it creates one rescale operation
    with a single multiplier and shift computed from
    [(input_scale * weight_scale) / output_scale] at the width chosen by
    [isScale32], input zero point 0, double rounding, and the per-channel
    flag clear; no diagnostic is emitted. *)
Lemma buildRescaleOpConvOutput_per_tensor
  (op : Operation) (conv_val : Value)
  (input_type weight_type output_type : RankedTensorType) (h : Host)
  (input_q output_q weight_q : UniformQuantizedType) :
  getElementType input_type = UniformQuantized input_q ->
  getElementType output_type = UniformQuantized output_q ->
  getElementType weight_type = UniformQuantized weight_q ->
  let ms :=
    computeMultiplierAndShift
      ((uq_scale input_q * uq_scale weight_q) / uq_scale output_q)%float
      (if isScale32 output_q then 32 else 16) in
  let rescale :=
    TosaRescaleOp output_type conv_val 0 (to_int32 (uq_zero_point output_q))
      [fst ms] [snd ms] (isScale32 output_q) true false in
  buildRescaleOpConvOutput computeMultiplierAndShift op conv_val
    input_type weight_type output_type h
  = Returned (OpResult (List.length (created h)) rescale,
              mkHost (created h ++ [rescale]) (diagnostics h)).
Proof.
  intros Hin Hout Hw. cbv zeta. unfold buildRescaleOpConvOutput.
  rewrite Hin, Hout, Hw. cbn [dyn_cast_UniformQuantizedType deref lift bind
    Monad_Rewrite].
  destruct (computeMultiplierAndShift _ _) as [m s]. reflexivity.
Qed.

End RescaleProperties.

(** A convolution with three output channels and three distinct weight
    scales: three pairs are emitted. *)
Lemma buildRescaleOpConvOutput_per_channel_witness :
  exists multiplier shift,
    let output_type :=
      mkRankedTensorType [1; 4; 4; 3] (UniformQuantized (int8_qtype 0.5 3)) in
    let conv_val := BlockArgument 0 (Ranked (i32_tensor [1; 4; 4; 3])) in
    let rescale :=
      TosaRescaleOp output_type conv_val 0 (to_int32 3)
        multiplier shift (isScale32 (int8_qtype 0.5 3)) true true in
    buildRescaleOpConvOutput fixed_point_quantizer
      (OtherOp "tfl.conv_2d" (Ranked output_type)) conv_val
      (mkRankedTensorType [1; 4; 4; 2] (UniformQuantized (int8_qtype 0.25 0)))
      (mkRankedTensorType [3; 1; 1; 2]
         (UniformQuantizedPerAxis (int8_per_axis_qtype [0.5; 1; 1.5]%float)))
      output_type empty_host
    = Returned (OpResult (List.length (created empty_host)) rescale,
                mkHost (created empty_host ++ [rescale])
                  (diagnostics empty_host))
    /\ Z.of_nat (List.length multiplier) = 3
    /\ Z.of_nat (List.length shift) = 3
    /\ combine multiplier shift
       = map (fun weight_scale =>
                fixed_point_quantizer
                  ((uq_scale (int8_qtype 0.25 0) * weight_scale)
                   / uq_scale (int8_qtype 0.5 3))%float
                  (if isScale32 (int8_qtype 0.5 3) then 32 else 16))
           (firstn (Z.to_nat 3)
              (pa_scales (int8_per_axis_qtype [0.5; 1; 1.5]%float))).
Proof.
  apply (buildRescaleOpConvOutput_per_channel fixed_point_quantizer
           (OtherOp "tfl.conv_2d"
              (Ranked (mkRankedTensorType [1; 4; 4; 3]
                         (UniformQuantized (int8_qtype 0.5 3)))))
           (BlockArgument 0 (Ranked (i32_tensor [1; 4; 4; 3])))
           (mkRankedTensorType [1; 4; 4; 2]
              (UniformQuantized (int8_qtype 0.25 0)))
           (mkRankedTensorType [3; 1; 1; 2]
              (UniformQuantizedPerAxis (int8_per_axis_qtype [0.5; 1; 1.5]%float)))
           (mkRankedTensorType [1; 4; 4; 3]
              (UniformQuantized (int8_qtype 0.5 3)))
           empty_host (int8_qtype 0.25 0) (int8_qtype 0.5 3)
           (int8_per_axis_qtype [0.5; 1; 1.5]%float) [1; 4; 4] 3).
  - reflexivity.
  - reflexivity.
  - reflexivity.
  - reflexivity.
  - vm_compute. split; discriminate.
  - vm_compute. reflexivity.
Defined.

Example per_channel_pairs :
  map (fun weight_scale =>
         fixed_point_quantizer ((0.25 * weight_scale) / 0.5)%float 32)
      [0.5; 1; 1.5]%float
  = [(536870912, 31); (1073741824, 31); (1610612736, 31)].
Proof. vm_compute. reflexivity. Qed.

(** A weight tensor of plain 8-bit integers: the builder reports the error
    and returns null. *)
Lemma buildRescaleOpConvOutput_unknown_weight_type_witness :
  let output_type :=
    mkRankedTensorType [1; 4; 4; 3] (UniformQuantized (int8_qtype 0.5 3)) in
  let op := OtherOp "tfl.conv_2d" (Ranked output_type) in
  buildRescaleOpConvOutput fixed_point_quantizer op
    (BlockArgument 0 (Ranked (i32_tensor [1; 4; 4; 3])))
    (mkRankedTensorType [1; 4; 4; 2] (UniformQuantized (int8_qtype 0.25 0)))
    (mkRankedTensorType [3; 1; 1; 2] (IntegerType 8))
    output_type empty_host
  = Returned (NullValue,
              mkHost (created empty_host)
                (diagnostics empty_host
                 ++ [(op, "buildConvRescaleOp: unknown weight quantized type"%string)])).
Proof.
  apply (buildRescaleOpConvOutput_unknown_weight_type fixed_point_quantizer
           (OtherOp "tfl.conv_2d"
              (Ranked (mkRankedTensorType [1; 4; 4; 3]
                         (UniformQuantized (int8_qtype 0.5 3)))))
           (BlockArgument 0 (Ranked (i32_tensor [1; 4; 4; 3])))
           (mkRankedTensorType [1; 4; 4; 2]
              (UniformQuantized (int8_qtype 0.25 0)))
           (mkRankedTensorType [3; 1; 1; 2] (IntegerType 8))
           (mkRankedTensorType [1; 4; 4; 3]
              (UniformQuantized (int8_qtype 0.5 3)))
           empty_host (int8_qtype 0.25 0) (int8_qtype 0.5 3));
    reflexivity.
Defined.

(** ** Padding translator for transposed convolution *)

Lemma transpose_conv_padding_spec (ifm_size filter_size ofm_size
  dim_dilation dim_stride : Z) :
  padding_fits_int ifm_size filter_size ofm_size dim_dilation dim_stride ->
  transpose_conv_padding ifm_size filter_size ofm_size dim_dilation dim_stride
  = spec_transpose_conv_padding ifm_size filter_size ofm_size
      dim_dilation dim_stride.
Proof.
  unfold padding_fits_int, transpose_conv_padding, spec_transpose_conv_padding.
  intros [Heff Htot].
  assert (H64 : forall x, in_int32 x -> to_int32 (to_int64 x) = x).
  { intros x Hx. rewrite to_int64_id, to_int32_id; try assumption; try reflexivity.
    unfold in_int32 in Hx. change (2 ^ 31) with 2147483648 in Hx.
    change (2 ^ 63) with 9223372036854775808. lia. }
  rewrite (H64 _ Heff). rewrite (H64 _ Htot).
  set (t := (ifm_size - 1) * dim_stride
            + ((filter_size - 1) * dim_dilation + 1) - ofm_size).
  destruct (t >? 0) eqn:E.
  - apply Z.gtb_lt in E. rewrite Z.max_r by lia.
    rewrite Z.quot_div_nonneg by lia. reflexivity.
  - rewrite Z.max_l by (rewrite Z.gtb_ltb in E; apply Z.ltb_ge in E; lia).
    reflexivity.
Qed.

Section PaddingProperties.

Variable GetTensorSpatialDimIndex : Z -> TensorFormat -> Z -> Z.

Lemma Padding_eqb_EXPLICIT (tf_pad : Padding) :
  Padding_eqb tf_pad EXPLICIT = true <-> tf_pad = EXPLICIT.
Proof. destruct tf_pad; cbn; split; congruence. Qed.

(** The function unfolded along its two loop iterations, once the
    assertion holds and the reads of both spatial dimensions succeed. *)
Lemma getTransposeConv2dPaddingValues_unfold
  (tf_pad : Padding) (data_format_tf : TensorFormat)
  (first_filter_spatial_dim : Z)
  (input_type filter_type output_type : RankedTensorType)
  (strides dilations : ArrayAttr)
  (ifm0 f0 ofm0 d0 s0 ifm1 f1 ofm1 d1 s1 : Z) :
  tf_pad <> EXPLICIT ->
  read_spatial_dim GetTensorSpatialDimIndex data_format_tf
    first_filter_spatial_dim input_type filter_type output_type
    strides dilations 0 = Returned (ifm0, f0, ofm0, d0, s0) ->
  read_spatial_dim GetTensorSpatialDimIndex data_format_tf
    first_filter_spatial_dim input_type filter_type output_type
    strides dilations 1 = Returned (ifm1, f1, ofm1, d1, s1) ->
  getTransposeConv2dPaddingValues GetTensorSpatialDimIndex tf_pad
    data_format_tf first_filter_spatial_dim input_type filter_type
    output_type strides dilations
  = Returned (true,
              getI64ArrayAttr
                [fst (transpose_conv_padding ifm0 f0 ofm0 d0 s0);
                 fst (transpose_conv_padding ifm1 f1 ofm1 d1 s1)]).
Proof.
  intros Hpad H0 H1. unfold getTransposeConv2dPaddingValues.
  destruct (Padding_eqb tf_pad EXPLICIT) eqn:E.
  { apply Padding_eqb_EXPLICIT in E. contradiction. }
  cbn [negb assert bind Monad_Outcome].
  change (Zrange 0 2) with [0; 1]. cbn [for_each bind Monad_Outcome].
  rewrite H0.
  destruct (transpose_conv_padding ifm0 f0 ofm0 d0 s0) as [b0 a0].
  cbn [ret Monad_Outcome]. rewrite H1.
  destruct (transpose_conv_padding ifm1 f1 ofm1 d1 s1) as [b1 a1].
  reflexivity.
Qed.

(** C3 (as the code has it): when the assertion holds, the sizes, strides
    and dilations of both spatial dimensions can be read, and the effective
    filter size and the total padding of each dimension fit in an [int],
    the translator assigns the two-element sequence of the [pad_before]
    values of the specification's formula (floor division), [pad_after]
    being computed as [total_padding - pad_before] and not emitted; for
    input 2, filter 3, stride 2, output 4, dilation 1 the pair is (0, 1). *)
Theorem getTransposeConv2dPaddingValues_formula
  (tf_pad : Padding) (data_format_tf : TensorFormat)
  (first_filter_spatial_dim : Z)
  (input_type filter_type output_type : RankedTensorType)
  (strides dilations : ArrayAttr)
  (ifm0 f0 ofm0 d0 s0 ifm1 f1 ofm1 d1 s1 : Z) :
  tf_pad <> EXPLICIT ->
  read_spatial_dim GetTensorSpatialDimIndex data_format_tf
    first_filter_spatial_dim input_type filter_type output_type
    strides dilations 0 = Returned (ifm0, f0, ofm0, d0, s0) ->
  read_spatial_dim GetTensorSpatialDimIndex data_format_tf
    first_filter_spatial_dim input_type filter_type output_type
    strides dilations 1 = Returned (ifm1, f1, ofm1, d1, s1) ->
  padding_fits_int ifm0 f0 ofm0 d0 s0 ->
  padding_fits_int ifm1 f1 ofm1 d1 s1 ->
  getTransposeConv2dPaddingValues GetTensorSpatialDimIndex tf_pad
    data_format_tf first_filter_spatial_dim input_type filter_type
    output_type strides dilations
  = Returned (true,
              [IntegerAttr 64
                 (fst (spec_transpose_conv_padding ifm0 f0 ofm0 d0 s0));
               IntegerAttr 64
                 (fst (spec_transpose_conv_padding ifm1 f1 ofm1 d1 s1))])
  /\ transpose_conv_padding ifm0 f0 ofm0 d0 s0
     = spec_transpose_conv_padding ifm0 f0 ofm0 d0 s0
  /\ transpose_conv_padding ifm1 f1 ofm1 d1 s1
     = spec_transpose_conv_padding ifm1 f1 ofm1 d1 s1
  /\ transpose_conv_padding 2 3 4 1 2 = (0, 1).
Proof.
  intros Hpad H0 H1 Hfit0 Hfit1.
  rewrite (getTransposeConv2dPaddingValues_unfold _ _ _ _ _ _ _ _
             _ _ _ _ _ _ _ _ _ _ Hpad H0 H1).
  rewrite (transpose_conv_padding_spec _ _ _ _ _ Hfit0).
  rewrite (transpose_conv_padding_spec _ _ _ _ _ Hfit1).
  repeat split; reflexivity.
Qed.

(** The translator has a single [return], of [true]. *)
Lemma getTransposeConv2dPaddingValues_never_false
  (tf_pad : Padding) (data_format_tf : TensorFormat)
  (first_filter_spatial_dim : Z)
  (input_type filter_type output_type : RankedTensorType)
  (strides dilations : ArrayAttr) :
  match getTransposeConv2dPaddingValues GetTensorSpatialDimIndex tf_pad
          data_format_tf first_filter_spatial_dim input_type filter_type
          output_type strides dilations with
  | Returned (ok, _) => ok = true
  | Aborted _ => True
  end.
Proof.
  unfold getTransposeConv2dPaddingValues.
  destruct (assert _ _); cbn [bind Monad_Outcome]; [|exact I].
  destruct (for_each _ _ _); cbn [ret bind Monad_Outcome]; [reflexivity|exact I].
Qed.

(** C10: on every input the translator either returns [true] with a
    two-element padding sequence, which it does whenever its assertion
    holds and the sizes, strides and dilations of both spatial dimensions
    can be read, whatever their values, or it stops on a failed assertion
    about the padding kind or the arity of its arguments; it never returns
    [false]. *)
Theorem getTransposeConv2dPaddingValues_no_failure_branch
  (tf_pad : Padding) (data_format_tf : TensorFormat)
  (first_filter_spatial_dim : Z)
  (input_type filter_type output_type : RankedTensorType)
  (strides dilations : ArrayAttr) :
  let read :=
    read_spatial_dim GetTensorSpatialDimIndex data_format_tf
      first_filter_spatial_dim input_type filter_type output_type
      strides dilations in
  let result :=
    getTransposeConv2dPaddingValues GetTensorSpatialDimIndex tf_pad
      data_format_tf first_filter_spatial_dim input_type filter_type
      output_type strides dilations in
  (tf_pad <> EXPLICIT
   /\ (exists sizes, read 0 = Returned sizes)
   /\ (exists sizes, read 1 = Returned sizes)
   /\ exists explicit_padding,
       result = Returned (true, explicit_padding)
       /\ List.length explicit_padding = 2%nat)
  \/ ((tf_pad = EXPLICIT
       \/ (exists why, read 0 = Aborted why)
       \/ (exists why, read 1 = Aborted why))
      /\ exists why, result = Aborted why).
Proof.
  intros read result.
  destruct (Padding_eqb tf_pad EXPLICIT) eqn:E.
  { right. split.
    - left. now apply Padding_eqb_EXPLICIT.
    - subst result. unfold getTransposeConv2dPaddingValues. rewrite E.
      cbn. eauto. }
  assert (Hpad : tf_pad <> EXPLICIT).
  { intros Heq. apply Padding_eqb_EXPLICIT in Heq. congruence. }
  destruct (read 0) as [[[[[ifm0 f0] ofm0] d0] s0]|why0] eqn:H0.
  - destruct (read 1) as [[[[[ifm1 f1] ofm1] d1] s1]|why1] eqn:H1.
    + left. split; [assumption|]. split; [eauto|]. split; [eauto|].
      subst result read.
      rewrite (getTransposeConv2dPaddingValues_unfold _ _ _ _ _ _ _ _
                 _ _ _ _ _ _ _ _ _ _ Hpad H0 H1).
      eexists. split; reflexivity.
    + right. split; [right; right; eauto|].
      subst result read. unfold getTransposeConv2dPaddingValues. rewrite E.
      cbn [negb assert bind Monad_Outcome].
      change (Zrange 0 2) with [0; 1]. cbn [for_each bind Monad_Outcome].
      rewrite H0.
      destruct (transpose_conv_padding ifm0 f0 ofm0 d0 s0) as [b0 a0].
      cbn [ret Monad_Outcome]. rewrite H1. eauto.
  - right. split; [right; left; eauto|].
    subst result read. unfold getTransposeConv2dPaddingValues. rewrite E.
    cbn [negb assert bind Monad_Outcome].
    change (Zrange 0 2) with [0; 1]. cbn [for_each bind Monad_Outcome].
    rewrite H0. eauto.
Qed.

End PaddingProperties.

(** The translator on the geometry input 2, filter 3, stride 2, output 4,
    dilation 1 in both spatial dimensions (channel-last tensors, filter
    laid out with its spatial dimensions from index 1): both emitted values
    are 0. *)
Lemma getTransposeConv2dPaddingValues_formula_witness :
  getTransposeConv2dPaddingValues GetTensorSpatialDimIndex_4d SAME
    FORMAT_NHWC 1 (i32_tensor [1; 2; 2; 1]) (i32_tensor [1; 3; 3; 1])
    (i32_tensor [1; 4; 4; 1]) (getI64ArrayAttr [2; 2])
    (getI64ArrayAttr [1; 1])
  = Returned (true,
              [IntegerAttr 64 (fst (spec_transpose_conv_padding 2 3 4 1 2));
               IntegerAttr 64 (fst (spec_transpose_conv_padding 2 3 4 1 2))])
  /\ transpose_conv_padding 2 3 4 1 2 = spec_transpose_conv_padding 2 3 4 1 2
  /\ transpose_conv_padding 2 3 4 1 2 = spec_transpose_conv_padding 2 3 4 1 2
  /\ transpose_conv_padding 2 3 4 1 2 = (0, 1).
Proof.
  apply (getTransposeConv2dPaddingValues_formula GetTensorSpatialDimIndex_4d
           SAME FORMAT_NHWC 1 (i32_tensor [1; 2; 2; 1])
           (i32_tensor [1; 3; 3; 1]) (i32_tensor [1; 4; 4; 1])
           (getI64ArrayAttr [2; 2]) (getI64ArrayAttr [1; 1])
           2 3 4 1 2 2 3 4 1 2).
  - discriminate.
  - reflexivity.
  - reflexivity.
  - vm_compute. repeat split; discriminate.
  - vm_compute. repeat split; discriminate.
Defined.

Example transpose_conv_example_emitted :
  getTransposeConv2dPaddingValues GetTensorSpatialDimIndex_4d SAME
    FORMAT_NHWC 1 (i32_tensor [1; 2; 2; 1]) (i32_tensor [1; 3; 3; 1])
    (i32_tensor [1; 4; 4; 1]) (getI64ArrayAttr [2; 2])
    (getI64ArrayAttr [1; 1])
  = Returned (true, [IntegerAttr 64 0; IntegerAttr 64 0]).
Proof. reflexivity. Qed.

(** C3 (as stated) fails on a geometry whose total padding does not fit in
    an [int]: with input size 2^31 + 1, filter, stride, dilation and output
    size 1, the formula gives total padding 2^31 and [pad_before] 2^30,
    while the translator, which keeps the total in an [int], emits 0. *)
Lemma getTransposeConv2dPaddingValues_wide_counterexample :
  let result :=
    getTransposeConv2dPaddingValues GetTensorSpatialDimIndex_4d SAME
      FORMAT_NHWC 1 (i32_tensor [1; 2 ^ 31 + 1; 2 ^ 31 + 1; 1])
      (i32_tensor [1; 1; 1; 1]) (i32_tensor [1; 1; 1; 1])
      (getI64ArrayAttr [1; 1]) (getI64ArrayAttr [1; 1]) in
  let claimed := fst (spec_transpose_conv_padding (2 ^ 31 + 1) 1 1 1 1) in
  result = Returned (true, [IntegerAttr 64 0; IntegerAttr 64 0])
  /\ claimed = 2 ^ 30
  /\ result <> Returned (true, [IntegerAttr 64 claimed; IntegerAttr 64 claimed]).
Proof.
  cbv zeta. split; [vm_compute; reflexivity|].
  split; [vm_compute; reflexivity|].
  vm_compute. discriminate.
Qed.

(** The translator stops on its assertion when handed explicit padding,
    and on an out-of-range read when a tensor has too few dimensions. *)
Example transpose_conv_explicit_padding_aborts :
  getTransposeConv2dPaddingValues GetTensorSpatialDimIndex_4d EXPLICIT
    FORMAT_NHWC 1 (i32_tensor [1; 2; 2; 1]) (i32_tensor [1; 3; 3; 1])
    (i32_tensor [1; 4; 4; 1]) (getI64ArrayAttr [2; 2])
    (getI64ArrayAttr [1; 1])
  = Aborted "tf_pad != tensorflow::Padding::EXPLICIT".
Proof. reflexivity. Qed.

Example transpose_conv_low_rank_aborts :
  getTransposeConv2dPaddingValues GetTensorSpatialDimIndex_4d SAME
    FORMAT_NHWC 1 (i32_tensor [1; 2]) (i32_tensor [1; 3; 3; 1])
    (i32_tensor [1; 4; 4; 1]) (getI64ArrayAttr [2; 2])
    (getI64ArrayAttr [1; 1])
  = Aborted "index out of range".
Proof. reflexivity. Qed.

(** A geometry with no feasible regular-convolution counterpart (output
    larger than anything the input can produce) still succeeds. *)
Example transpose_conv_any_geometry :
  getTransposeConv2dPaddingValues GetTensorSpatialDimIndex_4d VALID
    FORMAT_NCHW 1 (i32_tensor [1; 1; 0; 0]) (i32_tensor [1; 3; 3; 1])
    (i32_tensor [1; 1; 100; 100]) (getI64ArrayAttr [0; -3])
    (getI64ArrayAttr [-1; 7])
  = Returned (true, [IntegerAttr 64 0; IntegerAttr 64 0]).
Proof. reflexivity. Qed.

(** For comparison, the translator for regular convolutions does have a
    failure branch: it returns [false], and assigns no padding, as soon as
    the windowed output size cannot be computed. *)
Example getPaddingValuesFromPadType_can_fail :
  getPaddingValuesFromPadType GetTensorSpatialDimIndex_4d
    (fun _ _ _ _ _ => None) SAME FORMAT_NHWC 1
    (i32_tensor [1; 2; 2; 1]) (i32_tensor [1; 3; 3; 1])
    (getI64ArrayAttr [2; 2]) (getI64ArrayAttr [1; 1])
  = Returned (false, None).
Proof. reflexivity. Qed.

Example getPaddingValuesFromPadType_can_succeed :
  getPaddingValuesFromPadType GetTensorSpatialDimIndex_4d
    (fun _ _ _ _ _ => Some (4, 1, 1)) SAME FORMAT_NHWC 1
    (i32_tensor [1; 4; 4; 1]) (i32_tensor [1; 3; 3; 1])
    (getI64ArrayAttr [1; 1]) (getI64ArrayAttr [1; 1])
  = Returned (true, Some (getI64ArrayAttr [1; 1; 1; 1])).
Proof. reflexivity. Qed.

(** ** Bias dequantization *)

(** On a value whose element type is not quantized the function returns
    its argument and leaves the rewriter alone, constant or not. *)
Lemma getUnquantizedBias_unquantized (op : Operation) (input : Value)
  (h : Host) (input_type : RankedTensorType) :
  dyn_cast_RankedTensorType (getType input) = Some input_type ->
  dyn_cast_QuantizedType (getElementType input_type) = None ->
  getUnquantizedBias op input h = Returned (input, h).
Proof.
  intros Hty Hq. unfold getUnquantizedBias. rewrite Hty.
  cbn [deref lift bind Monad_Rewrite]. rewrite Hq. reflexivity.
Qed.


(** Whatever the first call returns, a second call on that result returns
    it again and changes nothing. *)
Lemma getUnquantizedBias_idempotent (op : Operation) (input v : Value)
  (h h' : Host) :
  getUnquantizedBias op input h = Returned (v, h') ->
  getUnquantizedBias op v h' = Returned (v, h').
Proof.
  unfold getUnquantizedBias at 1.
  destruct (dyn_cast_RankedTensorType (getType input)) as [input_type|] eqn:Hty;
    cbn [deref lift bind Monad_Rewrite]; [|discriminate].
  destruct (dyn_cast_QuantizedType (getElementType input_type)) as [q|] eqn:Hq.
  - destruct (getDefiningOpConstElementsAttr input) as [a|] eqn:Hc.
    + intros H. injection H as <- <-.
      apply getUnquantizedBias_unquantized
        with (input_type := mkRankedTensorType (getShape input_type)
                              (IntegerType (getStorageTypeIntegralWidth q)));
        reflexivity.
    + intros H. injection H as <- <-.
      unfold getUnquantizedBias. rewrite Hty.
      cbn [deref lift bind Monad_Rewrite]. rewrite Hq, Hc. reflexivity.
  - intros H. injection H as <- <-.
    now apply getUnquantizedBias_unquantized with (input_type := input_type).
Qed.

(** C9: on a constant of ranked tensor type whose element type carries no
    quantization, [getUnquantizedBias] returns its argument and creates
    nothing, and so does a second application to the result of the
    first. *)
Theorem getUnquantizedBias_unquantized_constant (op : Operation)
  (input : Value) (h : Host) (input_type : RankedTensorType)
  (value_attr : Attribute) :
  dyn_cast_RankedTensorType (getType input) = Some input_type ->
  getDefiningOpConstElementsAttr input = Some value_attr ->
  dyn_cast_QuantizedType (getElementType input_type) = None ->
  getUnquantizedBias op input h = Returned (input, h)
  /\ (once <- getUnquantizedBias op input ;; getUnquantizedBias op once) h
     = Returned (input, h).
Proof.
  intros Hty _ Hq.
  pose proof (getUnquantizedBias_unquantized op input h input_type Hty Hq) as H1.
  split; [exact H1|].
  cbn [bind Monad_Rewrite]. rewrite H1. exact H1.
Qed.

(** A 32-bit integer bias constant. *)
Lemma getUnquantizedBias_unquantized_constant_witness :
  let bias :=
    OpResult 0
      (TosaConstOp (i32_tensor [3])
         (DenseElementsAttr (i32_tensor [3]) [1; 2; 3])) in
  let op := OtherOp "tfl.conv_2d" (Ranked (i32_tensor [1; 4; 4; 3])) in
  let h := mkHost [TosaConstOp (i32_tensor [3])
                     (DenseElementsAttr (i32_tensor [3]) [1; 2; 3])] [] in
  getUnquantizedBias op bias h = Returned (bias, h)
  /\ (once <- getUnquantizedBias op bias ;; getUnquantizedBias op once) h
     = Returned (bias, h).
Proof.
  cbv zeta.
  apply (getUnquantizedBias_unquantized_constant
           (OtherOp "tfl.conv_2d" (Ranked (i32_tensor [1; 4; 4; 3])))
           (OpResult 0
              (TosaConstOp (i32_tensor [3])
                 (DenseElementsAttr (i32_tensor [3]) [1; 2; 3])))
           (mkHost [TosaConstOp (i32_tensor [3])
                      (DenseElementsAttr (i32_tensor [3]) [1; 2; 3])] [])
           (i32_tensor [3])
           (DenseElementsAttr (i32_tensor [3]) [1; 2; 3]));
    reflexivity.
Defined.

(** * Further properties of the helpers *)

(** ** Lookup tables: layout, saturation and the round trip of the split *)

Lemma nth_error_Zrange (lo : Z) (n k : nat) :
  (k < n)%nat -> nth_error (Zrange lo n) k = Some (lo + Z.of_nat k).
Proof.
  intros Hk. unfold Zrange.
  rewrite nth_error_map, nth_error_nth' with (d := 0%nat)
    by (rewrite length_seq; exact Hk).
  rewrite seq_nth by exact Hk. reflexivity.
Qed.

Lemma nth_error_table_index {A} (f : Z -> A) (i : Z) :
  -256 <= i <= 256 ->
  nth_error (map f (Zrange (-256) 513)) (Z.to_nat (i + 256)) = Some (f i).
Proof.
  intros Hi. rewrite nth_error_map, nth_error_Zrange by lia.
  cbn [option_map]. f_equal. f_equal. lia.
Qed.

(** X1: the 8-bit builder appends exactly one constant to the rewriter,
    whose declared element count is the number of stored entries, and the
    entry for the integer [i] of [-256..256] sits at position [i + 256]:
    it is the requantized sample, saturated (not wrapped) into
    [-32768, 32767] at the last step. *)
Theorem getTosaConst8bitTable_layout
  (op : Operation) (input_scale : double) (input_zp : Z)
  (output_scale : double) (output_zp : Z) (func : double -> double)
  (h : Host) (i : Z) :
  -256 <= i <= 256 ->
  exists table,
    let const_op :=
      TosaConstOp table_const_type
        (DenseElementsAttr table_storage_type table) in
    getTosaConst8bitTable op input_scale input_zp output_scale output_zp
      func h
    = Returned (OpResult (List.length (created h)) const_op,
                mkHost (created h ++ [const_op]) (diagnostics h))
    /\ getShape table_storage_type = [Z.of_nat (List.length table)]
    /\ nth_error table (Z.to_nat (i + 256))
       = Some (Z.min
                 (Z.max
                    (to_int32
                       (to_int32
                          (Double.llround
                             (func (input_scale
                                    * Double.of_int (to_int32 (i - input_zp)))
                              / output_scale)%float)
                        + output_zp))
                    (-32768))
                 32767).
Proof.
  intros Hi.
  exists (table8_vec input_scale input_zp output_scale output_zp func).
  cbv zeta. split; [reflexivity|]. split.
  - rewrite table8_vec_length. reflexivity.
  - rewrite table8_vec_map, nth_error_table_index by exact Hi.
    unfold table8_entry. rewrite clamp_to_int16_spec. reflexivity.
Qed.

(** The identity with unit scales: the entry for 0 is 0. *)
Lemma getTosaConst8bitTable_layout_witness :
  exists table,
    let const_op :=
      TosaConstOp table_const_type
        (DenseElementsAttr table_storage_type table) in
    getTosaConst8bitTable (OtherOp "tfl.logistic" (Ranked (i32_tensor [1])))
      1 0 1 0 (fun x => x) empty_host
    = Returned (OpResult (List.length (created empty_host)) const_op,
                mkHost (created empty_host ++ [const_op])
                  (diagnostics empty_host))
    /\ getShape table_storage_type = [Z.of_nat (List.length table)]
    /\ nth_error table (Z.to_nat (0 + 256))
       = Some (Z.min
                 (Z.max
                    (to_int32
                       (to_int32
                          (Double.llround
                             ((fun x => x)
                                (1 * Double.of_int (to_int32 (0 - 0)))
                              / 1)%float)
                        + 0))
                    (-32768))
                 32767).
Proof.
  apply (getTosaConst8bitTable_layout
           (OtherOp "tfl.logistic" (Ranked (i32_tensor [1])))
           1 0 1 0 (fun x => x) empty_host 0).
  vm_compute. split; discriminate.
Defined.



(** X3: whenever the clamped rescaled value of the sample for [i] is an
    [int32_t], the pair stored at position [i + 256] of the two tables
    reassembles (upper half shifted by 16, lower half with 0x8000 added
    back) to exactly that value. *)
Theorem table32_arrays_roundtrip
  (input_scale : double) (input_zp : Z) (func : double -> double) (i : Z) :
  -256 <= i <= 256 ->
  in_int32
    (table32_rescaled
       (func (input_scale * Double.of_int (to_int32 (i - input_zp)))%float)) ->
  exists upper lower,
    nth_error (fst (table32_arrays input_scale input_zp func))
      (Z.to_nat (i + 256)) = Some upper
    /\ nth_error (snd (table32_arrays input_scale input_zp func))
         (Z.to_nat (i + 256)) = Some lower
    /\ reassemble upper lower
       = table32_rescaled
           (func (input_scale * Double.of_int (to_int32 (i - input_zp)))%float).
Proof.
  intros Hi Hr. rewrite table32_arrays_map. cbn [fst snd].
  rewrite !nth_error_table_index by exact Hi.
  eexists _, _. split; [reflexivity|]. split; [reflexivity|].
  unfold table32_entry. cbn [fst snd].
  apply split_reassemble_roundtrip. exact Hr.
Qed.

(** The constant function 0.5: the pair at position 256 reassembles to
    2^30. *)
Lemma table32_arrays_roundtrip_witness :
  exists upper lower,
    nth_error (fst (table32_arrays 1 0 (fun _ => 0.5%float)))
      (Z.to_nat (0 + 256)) = Some upper
    /\ nth_error (snd (table32_arrays 1 0 (fun _ => 0.5%float)))
         (Z.to_nat (0 + 256)) = Some lower
    /\ reassemble upper lower
       = table32_rescaled
           ((fun _ => 0.5%float)
              (1 * Double.of_int (to_int32 (0 - 0)))%float).
Proof.
  apply (table32_arrays_roundtrip 1 0 (fun _ => 0.5%float) 0).
  - vm_compute. split; discriminate.
  - vm_compute. split; discriminate.
Defined.

Lemma Prim2SF_one : Prim2SF 1 = S754_finite false 4503599627370496 (-52).
Proof. vm_compute. reflexivity. Qed.

Lemma Prim2SF_minus_one :
  Prim2SF (-1) = S754_finite true 4503599627370496 (-52).
Proof. vm_compute. reflexivity. Qed.

Lemma ltb_above_one_not_below (t : double) :
  PrimFloat.ltb 1 t = true -> PrimFloat.ltb t (-1) = false.
Proof.
  rewrite !ltb_spec, Prim2SF_one, Prim2SF_minus_one.
  unfold SFltb, SFcompare.
  destruct (Prim2SF t) as [s|s| |s m e]; try destruct s;
    try congruence; try reflexivity.
Qed.

(** X4: a transformed value above 1.0, +infinity included, is truncated
    to 1.0 and stored as the largest pair (32767, 32767), which reassembles
    to 2^31 - 1. *)
Theorem table32_saturates_above_one (transformed : double) :
  PrimFloat.ltb 1 transformed = true ->
  table32_rescaled transformed = 2 ^ 31 - 1
  /\ to_int16 (table32_upper (table32_rescaled transformed)) = 32767
  /\ to_int16 (table32_lower (table32_rescaled transformed)) = 32767.
Proof.
  intros H.
  assert (E : table32_rescaled transformed = 2 ^ 31 - 1).
  { unfold table32_rescaled, Double.std_min, Double.std_max.
    rewrite (ltb_above_one_not_below transformed H), H.
    vm_compute. reflexivity. }
  rewrite E. repeat split; vm_compute; reflexivity.
Qed.

Lemma table32_saturates_above_one_witness :
  table32_rescaled infinity = 2 ^ 31 - 1
  /\ to_int16 (table32_upper (table32_rescaled infinity)) = 32767
  /\ to_int16 (table32_lower (table32_rescaled infinity)) = 32767.
Proof.
  apply (table32_saturates_above_one infinity). vm_compute. reflexivity.
Defined.

(** X5: a transformed value below -1.0, -infinity included, is truncated
    to -1.0 and stored as the smallest pair (-32768, -32768), which
    reassembles to -2^31. *)
Theorem table32_saturates_below_minus_one (transformed : double) :
  PrimFloat.ltb transformed (-1) = true ->
  table32_rescaled transformed = - 2 ^ 31
  /\ to_int16 (table32_upper (table32_rescaled transformed)) = -32768
  /\ to_int16 (table32_lower (table32_rescaled transformed)) = -32768.
Proof.
  intros H.
  assert (E : table32_rescaled transformed = - 2 ^ 31).
  { unfold table32_rescaled, Double.std_min, Double.std_max.
    rewrite H. vm_compute. reflexivity. }
  rewrite E. repeat split; vm_compute; reflexivity.
Qed.

Lemma table32_saturates_below_minus_one_witness :
  table32_rescaled neg_infinity = - 2 ^ 31
  /\ to_int16 (table32_upper (table32_rescaled neg_infinity)) = -32768
  /\ to_int16 (table32_lower (table32_rescaled neg_infinity)) = -32768.
Proof.
  apply (table32_saturates_below_minus_one neg_infinity).
  vm_compute. reflexivity.
Defined.

(** ** Bias dequantization, beyond unquantized constants *)


(** X6: applying [getUnquantizedBias] twice is applying it once: whatever
    the first call returns, value and rewriter, the two calls in sequence
    return the same, so the second creates nothing. *)
Theorem getUnquantizedBias_twice (op : Operation) (input v : Value)
  (h h' : Host) :
  getUnquantizedBias op input h = Returned (v, h') ->
  (once <- getUnquantizedBias op input ;; getUnquantizedBias op once) h
  = Returned (v, h').
Proof.
  intros H. cbn [bind Monad_Rewrite]. rewrite H.
  exact (getUnquantizedBias_idempotent op input v h h' H).
Qed.



(** The same constant, for the two calls in sequence. *)
Lemma getUnquantizedBias_twice_witness :
  let qbias_type :=
    mkRankedTensorType [3] (UniformQuantized (int8_qtype 0.5 0)) in
  let value_attr :=
    DenseElementsAttr (mkRankedTensorType [3] (IntegerType 8)) [1; -2; 3] in
  let qconst := TflQConstOp (Ranked qbias_type) value_attr in
  let const_op :=
    TosaConstOp (mkRankedTensorType [3] (IntegerType 8)) value_attr in
  let op := OtherOp "tfl.conv_2d" (Ranked (i32_tensor [1])) in
  (once <- getUnquantizedBias op (OpResult 0 qconst) ;;
   getUnquantizedBias op once) (mkHost [qconst] [])
  = Returned (OpResult 1 const_op, mkHost [qconst; const_op] []).
Proof.
  cbv zeta.
  apply (getUnquantizedBias_twice
           (OtherOp "tfl.conv_2d" (Ranked (i32_tensor [1])))
           (OpResult 0
              (TflQConstOp
                 (Ranked (mkRankedTensorType [3]
                            (UniformQuantized (int8_qtype 0.5 0))))
                 (DenseElementsAttr (mkRankedTensorType [3] (IntegerType 8))
                    [1; -2; 3])))).
  reflexivity.
Defined.

(** X8: a value of ranked tensor type that is not both quantized and
    defined by a constant (a quantized block argument, the quantized result
    of another operation, any unquantized value) is returned as it is, and
    the rewriter is left alone. *)
Theorem getUnquantizedBias_leaves_other_values (op : Operation)
  (input : Value) (h : Host) (input_type : RankedTensorType) :
  dyn_cast_RankedTensorType (getType input) = Some input_type ->
  dyn_cast_QuantizedType (getElementType input_type) = None
  \/ getDefiningOpConstElementsAttr input = None ->
  getUnquantizedBias op input h = Returned (input, h).
Proof.
  intros Hty [Hq|Hc]; unfold getUnquantizedBias; rewrite Hty;
    cbn [deref lift bind Monad_Rewrite].
  - rewrite Hq. reflexivity.
  - rewrite Hc. destruct (dyn_cast_QuantizedType _); reflexivity.
Qed.

(** A quantized block argument. *)
Lemma getUnquantizedBias_leaves_other_values_witness :
  let input :=
    BlockArgument 2
      (Ranked (mkRankedTensorType [3] (UniformQuantized (int8_qtype 0.5 0)))) in
  getUnquantizedBias (OtherOp "tfl.conv_2d" (Ranked (i32_tensor [1])))
    input empty_host
  = Returned (input, empty_host).
Proof.
  cbv zeta.
  apply (getUnquantizedBias_leaves_other_values
           (OtherOp "tfl.conv_2d" (Ranked (i32_tensor [1])))
           (BlockArgument 2
              (Ranked (mkRankedTensorType [3]
                         (UniformQuantized (int8_qtype 0.5 0)))))
           empty_host
           (mkRankedTensorType [3] (UniformQuantized (int8_qtype 0.5 0)))).
  - reflexivity.
  - right. reflexivity.
Defined.

(** ** Rescale builders, beyond the per-channel and the unknown branch *)

(** An 8-bit output, an 8-bit per-tensor weight. *)
Lemma buildRescaleOpConvOutput_per_tensor_witness :
  let output_type :=
    mkRankedTensorType [1; 4; 4; 3] (UniformQuantized (int8_qtype 0.5 3)) in
  let conv_val := BlockArgument 0 (Ranked (i32_tensor [1; 4; 4; 3])) in
  let ms :=
    fixed_point_quantizer
      ((uq_scale (int8_qtype 0.25 0) * uq_scale (int8_qtype 1.5 0))
       / uq_scale (int8_qtype 0.5 3))%float
      (if isScale32 (int8_qtype 0.5 3) then 32 else 16) in
  let rescale :=
    TosaRescaleOp output_type conv_val 0
      (to_int32 (uq_zero_point (int8_qtype 0.5 3)))
      [fst ms] [snd ms] (isScale32 (int8_qtype 0.5 3)) true false in
  buildRescaleOpConvOutput fixed_point_quantizer
    (OtherOp "tfl.conv_2d" (Ranked output_type)) conv_val
    (mkRankedTensorType [1; 4; 4; 2] (UniformQuantized (int8_qtype 0.25 0)))
    (mkRankedTensorType [3; 1; 1; 2] (UniformQuantized (int8_qtype 1.5 0)))
    output_type empty_host
  = Returned (OpResult (List.length (created empty_host)) rescale,
              mkHost (created empty_host ++ [rescale])
                (diagnostics empty_host)).
Proof.
  cbv zeta.
  apply (buildRescaleOpConvOutput_per_tensor fixed_point_quantizer
           (OtherOp "tfl.conv_2d"
              (Ranked (mkRankedTensorType [1; 4; 4; 3]
                         (UniformQuantized (int8_qtype 0.5 3)))))
           (BlockArgument 0 (Ranked (i32_tensor [1; 4; 4; 3])))
           (mkRankedTensorType [1; 4; 4; 2]
              (UniformQuantized (int8_qtype 0.25 0)))
           (mkRankedTensorType [3; 1; 1; 2]
              (UniformQuantized (int8_qtype 1.5 0)))
           (mkRankedTensorType [1; 4; 4; 3]
              (UniformQuantized (int8_qtype 0.5 3)))
           empty_host (int8_qtype 0.25 0) (int8_qtype 0.5 3)
           (int8_qtype 1.5 0));
    reflexivity.
Defined.

Section MoreRescaleProperties.

Variable computeMultiplierAndShift : double -> Z -> Z * Z.

(** X9: [buildRescaleToInt32] stops on its assertion when the input has no
    ranked tensor type; otherwise it creates one rescale operation whose
    output keeps the input shape with element type i32, with output zero
    point 0, single rounding, the 32-bit scale path (multiplier and shift
    computed at width 32) and the per-channel flag clear. *)
Theorem buildRescaleToInt32_characterised
  (op : Operation) (input_val : Value) (input_scale : double)
  (input_zp : Z) (h : Host) :
  buildRescaleToInt32 computeMultiplierAndShift op input_val input_scale
    input_zp h
  = match dyn_cast_RankedTensorType (getType input_val) with
    | Some input_type =>
        let rescale :=
          TosaRescaleOp
            (mkRankedTensorType (getShape input_type) (IntegerType 32))
            input_val (to_int32 input_zp) 0
            [fst (computeMultiplierAndShift input_scale 32)]
            [snd (computeMultiplierAndShift input_scale 32)]
            true false false in
        Returned (OpResult (List.length (created h)) rescale,
                  mkHost (created h ++ [rescale]) (diagnostics h))
    | None => Aborted "assert(input_type)"
    end.
Proof.
  destruct (dyn_cast_RankedTensorType (getType input_val)) as [t|] eqn:Hty.
  - exact (buildRescaleToInt32_spec computeMultiplierAndShift op input_val
             input_scale input_zp h t Hty).
  - unfold buildRescaleToInt32. rewrite Hty. reflexivity.
Qed.

(** X10: promotion followed by demotion never trips the demotion's
    assertion: on an input of ranked tensor type, the value returned by
    [buildRescaleToInt32] has element type i32, and [buildRescaleFromInt32]
    applied to it appends a second rescale operation that consumes the
    first. *)
Theorem buildRescaleToInt32_then_FromInt32
  (op : Operation) (output_type : RankedTensorType) (input_val : Value)
  (input_scale : double) (input_zp : Z) (output_scale : double)
  (output_zp : Z) (h : Host) (input_type : RankedTensorType) :
  dyn_cast_RankedTensorType (getType input_val) = Some input_type ->
  exists wide_op narrow_op,
    (wide <- buildRescaleToInt32 computeMultiplierAndShift op input_val
               input_scale input_zp ;;
     buildRescaleFromInt32 computeMultiplierAndShift op output_type wide
       output_scale output_zp) h
    = Returned (OpResult (S (List.length (created h))) narrow_op,
                mkHost (created h ++ [wide_op; narrow_op]) (diagnostics h))
    /\ getResultType wide_op
       = Ranked (mkRankedTensorType (getShape input_type) (IntegerType 32))
    /\ has_i32_element_type (OpResult (List.length (created h)) wide_op)
       = true
    /\ narrow_op
       = TosaRescaleOp output_type
           (OpResult (List.length (created h)) wide_op)
           0 (to_int32 output_zp)
           [fst (computeMultiplierAndShift output_scale 32)]
           [snd (computeMultiplierAndShift output_scale 32)]
           true true false.
Proof.
  intros Hty. cbn [bind Monad_Rewrite].
  rewrite (buildRescaleToInt32_spec computeMultiplierAndShift op input_val
             input_scale input_zp h input_type Hty).
  cbv zeta.
  set (wide_op :=
         TosaRescaleOp
           (mkRankedTensorType (getShape input_type) (IntegerType 32))
           input_val (to_int32 input_zp) 0
           [fst (computeMultiplierAndShift input_scale 32)]
           [snd (computeMultiplierAndShift input_scale 32)]
           true false false).
  exists wide_op.
  exists (TosaRescaleOp output_type
            (OpResult (List.length (created h)) wide_op)
            0 (to_int32 output_zp)
            [fst (computeMultiplierAndShift output_scale 32)]
            [snd (computeMultiplierAndShift output_scale 32)]
            true true false).
  split; [|repeat split; reflexivity].
  unfold buildRescaleFromInt32, buildRescale.
  cbn [getType getResultType dyn_cast_RankedTensorType getElementType
       isInteger Z.eqb Pos.eqb assert lift bind Monad_Rewrite wide_op].
  destruct (computeMultiplierAndShift output_scale 32) as [m s].
  unfold create. cbn [created diagnostics fst snd].
  rewrite length_app. cbn [List.length].
  rewrite Nat.add_1_r, <- app_assoc. reflexivity.
Qed.

Lemma at_index_beyond {A} (l : list A) (idx : Z) :
  Z.of_nat (List.length l) <= idx ->
  at_index l idx = Aborted "index out of range".
Proof.
  intros H. unfold at_index.
  replace (idx <? Z.of_nat (List.length l)) with false
    by (symmetry; apply Z.ltb_ge; exact H).
  now rewrite andb_false_r.
Qed.

(** The per-channel loop with more channels to go than scales left: it
    runs through the scales and stops on the index one past the last. *)
Lemma conv_channel_loop_short
  (input_scale output_scale : double) (scale_width : Z)
  (weight_scale_arr : list double) (n lo : nat) (ms ss : list Z) :
  (lo <= List.length weight_scale_arr)%nat ->
  (List.length weight_scale_arr < lo + n)%nat ->
  for_each (Zrange (Z.of_nat lo) n)
    (fun oc '(multiplier_arr, shift_arr) =>
       weight_scale <- at_index weight_scale_arr oc ;;
       let op_channel_scale :=
         ((input_scale * weight_scale) / output_scale)%float in
       let '(multiplier, shift) :=
         computeMultiplierAndShift op_channel_scale scale_width in
       ret (push_back multiplier_arr multiplier, push_back shift_arr shift))
    (ms, ss)
  = Aborted "index out of range".
Proof.
  revert lo ms ss. induction n as [|n IH]; intros lo ms ss Hlo Hlen; [lia|].
  rewrite Zrange_cons. cbn [for_each].
  destruct (Nat.eq_dec lo (List.length weight_scale_arr)) as [->|Hne].
  - rewrite at_index_beyond by lia. reflexivity.
  - destruct (skipn lo weight_scale_arr) as [|x rest] eqn:E.
    { apply (f_equal (@List.length _)) in E. rewrite length_skipn in E.
      cbn in E. lia. }
    rewrite (at_index_skipn _ _ _ _ E). cbn [bind Monad_Outcome].
    destruct (computeMultiplierAndShift _ scale_width) as [m s].
    cbn [ret Monad_Outcome].
    replace (Z.of_nat lo + 1) with (Z.of_nat (S lo)) by lia.
    apply IH; lia.
Qed.

(** X12: when the per-axis weight type carries fewer scales than the
    output has channels, the per-channel branch stops on the out-of-range
    read of the missing scale: no rescale operation is created and no
    diagnostic is emitted. *)
Theorem buildRescaleOpConvOutput_missing_scales
  (op : Operation) (conv_val : Value)
  (input_type weight_type output_type : RankedTensorType) (h : Host)
  (input_q output_q : UniformQuantizedType)
  (weight_q : UniformQuantizedPerAxisType) (dims : list Z) (N : Z) :
  getElementType input_type = UniformQuantized input_q ->
  getElementType output_type = UniformQuantized output_q ->
  getElementType weight_type = UniformQuantizedPerAxis weight_q ->
  getShape output_type = dims ++ [N] ->
  Z.of_nat (List.length (pa_scales weight_q)) < N < 2 ^ 32 ->
  buildRescaleOpConvOutput computeMultiplierAndShift op conv_val
    input_type weight_type output_type h
  = Aborted "index out of range".
Proof.
  intros Hin Hout Hw Hshape HN. unfold buildRescaleOpConvOutput.
  rewrite Hin, Hout, Hw, Hshape. cbn [dyn_cast_UniformQuantizedType
    dyn_cast_UniformQuantizedPerAxisType deref lift bind Monad_Rewrite].
  rewrite at_index_last. cbn [lift].
  rewrite to_uint32_id by lia.
  unfold conv_channel_loop.
  pose proof (conv_channel_loop_short (uq_scale input_q) (uq_scale output_q)
                (if isScale32 output_q then 32 else 16)
                (pa_scales weight_q) (Z.to_nat N) 0 [] []) as H.
  cbn [Z.of_nat] in H. rewrite H by lia. reflexivity.
Qed.

End MoreRescaleProperties.

(** An 8-bit tensor of shape 2x2 promoted and demoted again. *)
Lemma buildRescaleToInt32_then_FromInt32_witness :
  let input_type :=
    mkRankedTensorType [2; 2] (UniformQuantized (int8_qtype 0.5 1)) in
  let input_val := BlockArgument 0 (Ranked input_type) in
  let op := OtherOp "tfl.add" (Ranked input_type) in
  exists wide_op narrow_op,
    (wide <- buildRescaleToInt32 fixed_point_quantizer op input_val 0.5 1 ;;
     buildRescaleFromInt32 fixed_point_quantizer op input_type wide 0.25 1)
      empty_host
    = Returned (OpResult (S (List.length (created empty_host))) narrow_op,
                mkHost (created empty_host ++ [wide_op; narrow_op])
                  (diagnostics empty_host))
    /\ getResultType wide_op
       = Ranked (mkRankedTensorType (getShape input_type) (IntegerType 32))
    /\ has_i32_element_type
         (OpResult (List.length (created empty_host)) wide_op) = true
    /\ narrow_op
       = TosaRescaleOp input_type
           (OpResult (List.length (created empty_host)) wide_op)
           0 (to_int32 1)
           [fst (fixed_point_quantizer 0.25 32)]
           [snd (fixed_point_quantizer 0.25 32)]
           true true false.
Proof.
  cbv zeta.
  apply (buildRescaleToInt32_then_FromInt32 fixed_point_quantizer
           (OtherOp "tfl.add"
              (Ranked (mkRankedTensorType [2; 2]
                         (UniformQuantized (int8_qtype 0.5 1)))))
           (mkRankedTensorType [2; 2] (UniformQuantized (int8_qtype 0.5 1)))
           (BlockArgument 0
              (Ranked (mkRankedTensorType [2; 2]
                         (UniformQuantized (int8_qtype 0.5 1)))))
           0.5 1 0.25 1 empty_host
           (mkRankedTensorType [2; 2] (UniformQuantized (int8_qtype 0.5 1)))).
  reflexivity.
Defined.

(** Three output channels, two weight scales. *)
Lemma buildRescaleOpConvOutput_missing_scales_witness :
  let output_type :=
    mkRankedTensorType [1; 4; 4; 3] (UniformQuantized (int8_qtype 0.5 3)) in
  buildRescaleOpConvOutput fixed_point_quantizer
    (OtherOp "tfl.conv_2d" (Ranked output_type))
    (BlockArgument 0 (Ranked (i32_tensor [1; 4; 4; 3])))
    (mkRankedTensorType [1; 4; 4; 2] (UniformQuantized (int8_qtype 0.25 0)))
    (mkRankedTensorType [3; 1; 1; 2]
       (UniformQuantizedPerAxis (int8_per_axis_qtype [0.5; 1]%float)))
    output_type empty_host
  = Aborted "index out of range".
Proof.
  cbv zeta.
  apply (buildRescaleOpConvOutput_missing_scales fixed_point_quantizer
           (OtherOp "tfl.conv_2d"
              (Ranked (mkRankedTensorType [1; 4; 4; 3]
                         (UniformQuantized (int8_qtype 0.5 3)))))
           (BlockArgument 0 (Ranked (i32_tensor [1; 4; 4; 3])))
           (mkRankedTensorType [1; 4; 4; 2]
              (UniformQuantized (int8_qtype 0.25 0)))
           (mkRankedTensorType [3; 1; 1; 2]
              (UniformQuantizedPerAxis (int8_per_axis_qtype [0.5; 1]%float)))
           (mkRankedTensorType [1; 4; 4; 3]
              (UniformQuantized (int8_qtype 0.5 3)))
           empty_host (int8_qtype 0.25 0) (int8_qtype 0.5 3)
           (int8_per_axis_qtype [0.5; 1]%float) [1; 4; 4] 3).
  - reflexivity.
  - reflexivity.
  - reflexivity.
  - reflexivity.
  - vm_compute. split; reflexivity.
Defined.

(** ** Padding translators, beyond the formula *)

(** For every geometry, overflowing or not: the total padding kept in the
    [int] is split into two non-negative halves, the second larger by at
    most one. *)
Lemma transpose_conv_padding_bounds
  (ifm_size filter_size ofm_size dim_dilation dim_stride : Z) :
  0 <= fst (transpose_conv_padding ifm_size filter_size ofm_size
              dim_dilation dim_stride) < 2 ^ 30
  /\ fst (transpose_conv_padding ifm_size filter_size ofm_size
            dim_dilation dim_stride)
     <= snd (transpose_conv_padding ifm_size filter_size ofm_size
               dim_dilation dim_stride)
     <= fst (transpose_conv_padding ifm_size filter_size ofm_size
               dim_dilation dim_stride) + 1.
Proof.
  unfold transpose_conv_padding.
  set (t := to_int32
              (to_int64
                 ((ifm_size - 1) * dim_stride
                  + to_int32 (to_int64 ((filter_size - 1) * dim_dilation + 1))
                  - ofm_size))).
  pose proof (to_int32_range
                (to_int64
                   ((ifm_size - 1) * dim_stride
                    + to_int32
                        (to_int64 ((filter_size - 1) * dim_dilation + 1))
                    - ofm_size))) as Ht.
  fold t in Ht. unfold in_int32 in Ht. change (2 ^ 31) with 2147483648 in Ht.
  change (2 ^ 30) with 1073741824. cbn [fst snd].
  destruct (t >? 0) eqn:E.
  - apply Z.gtb_lt in E. rewrite Z.quot_div_nonneg by lia.
    pose proof (Z.div_mod t 2 ltac:(lia)).
    pose proof (Z.mod_pos_bound t 2 ltac:(lia)). lia.
  - change (Z.quot 0 2) with 0. lia.
Qed.

Section MorePaddingProperties.

Variable GetTensorSpatialDimIndex : Z -> TensorFormat -> Z -> Z.

(** X13: whatever the sizes, strides and dilations read for the two
    spatial dimensions are, and also where the arithmetic kept in an [int]
    overflows, the two values emitted by the transposed-convolution
    translator are non-negative and below 2^30, and in each dimension the
    [pad_after] that is computed and dropped exceeds the emitted
    [pad_before] by 0 or 1. *)
Theorem getTransposeConv2dPaddingValues_never_negative
  (tf_pad : Padding) (data_format_tf : TensorFormat)
  (first_filter_spatial_dim : Z)
  (input_type filter_type output_type : RankedTensorType)
  (strides dilations : ArrayAttr)
  (ifm0 f0 ofm0 d0 s0 ifm1 f1 ofm1 d1 s1 : Z) :
  tf_pad <> EXPLICIT ->
  read_spatial_dim GetTensorSpatialDimIndex data_format_tf
    first_filter_spatial_dim input_type filter_type output_type
    strides dilations 0 = Returned (ifm0, f0, ofm0, d0, s0) ->
  read_spatial_dim GetTensorSpatialDimIndex data_format_tf
    first_filter_spatial_dim input_type filter_type output_type
    strides dilations 1 = Returned (ifm1, f1, ofm1, d1, s1) ->
  exists before0 after0 before1 after1,
    getTransposeConv2dPaddingValues GetTensorSpatialDimIndex tf_pad
      data_format_tf first_filter_spatial_dim input_type filter_type
      output_type strides dilations
    = Returned (true, [IntegerAttr 64 before0; IntegerAttr 64 before1])
    /\ transpose_conv_padding ifm0 f0 ofm0 d0 s0 = (before0, after0)
    /\ transpose_conv_padding ifm1 f1 ofm1 d1 s1 = (before1, after1)
    /\ 0 <= before0 < 2 ^ 30 /\ before0 <= after0 <= before0 + 1
    /\ 0 <= before1 < 2 ^ 30 /\ before1 <= after1 <= before1 + 1.
Proof.
  intros Hpad H0 H1.
  rewrite (getTransposeConv2dPaddingValues_unfold GetTensorSpatialDimIndex
             _ _ _ _ _ _ _ _ _ _ _ _ _ _ _ _ _ _ Hpad H0 H1).
  pose proof (transpose_conv_padding_bounds ifm0 f0 ofm0 d0 s0) as [B0 A0].
  pose proof (transpose_conv_padding_bounds ifm1 f1 ofm1 d1 s1) as [B1 A1].
  destruct (transpose_conv_padding ifm0 f0 ofm0 d0 s0) as [b0 a0].
  destruct (transpose_conv_padding ifm1 f1 ofm1 d1 s1) as [b1 a1].
  cbn [fst snd] in *. exists b0, a0, b1, a1.
  repeat split; try reflexivity; lia.
Qed.

(** [at_index] on an array of integer attributes. *)
Lemma at_index_IntegerAttr (w : Z) (pads : list Z) (idx : Z) :
  0 <= idx < Z.of_nat (List.length pads) ->
  x <- at_index (map (IntegerAttr w) pads) idx ;; cast_IntegerAttr_getInt x
  = Returned (nth (Z.to_nat idx) pads 0).
Proof.
  intros Hidx. unfold at_index. rewrite length_map.
  replace ((0 <=? idx) && (idx <? Z.of_nat (List.length pads))) with true
    by (symmetry; apply andb_true_iff; split;
        [apply Z.leb_le|apply Z.ltb_lt]; lia).
  rewrite nth_error_map, nth_error_nth' with (d := 0) by lia.
  reflexivity.
Qed.

(** X16: from a pad array of integer attributes that reaches the two
    entries of both spatial dimensions, the explicit-padding translator
    returns exactly four 64-bit entries: the pair of the first spatial
    dimension, then the pair of the second, each in the order
    (before, after) and with the values unchanged, whatever width the
    input attributes had. *)
Theorem getPaddingValuesFromExplicitPadAttr_extracts
  (pads : list Z) (width : Z) (data_format_tf : TensorFormat) :
  0 <= GetTensorSpatialDimIndex 4 data_format_tf 0 ->
  0 <= GetTensorSpatialDimIndex 4 data_format_tf 1 ->
  2 * GetTensorSpatialDimIndex 4 data_format_tf 0 + 1
  < Z.of_nat (List.length pads) ->
  2 * GetTensorSpatialDimIndex 4 data_format_tf 1 + 1
  < Z.of_nat (List.length pads) ->
  Z.of_nat (List.length pads) <= 2 ^ 32 ->
  getPaddingValuesFromExplicitPadAttr GetTensorSpatialDimIndex
    (map (IntegerAttr width) pads) data_format_tf
  = Returned
      [IntegerAttr 64
         (nth (Z.to_nat (2 * GetTensorSpatialDimIndex 4 data_format_tf 0))
            pads 0);
       IntegerAttr 64
         (nth (Z.to_nat (2 * GetTensorSpatialDimIndex 4 data_format_tf 0 + 1))
            pads 0);
       IntegerAttr 64
         (nth (Z.to_nat (2 * GetTensorSpatialDimIndex 4 data_format_tf 1))
            pads 0);
       IntegerAttr 64
         (nth (Z.to_nat (2 * GetTensorSpatialDimIndex 4 data_format_tf 1 + 1))
            pads 0)].
Proof.
  intros P0 P1 L0 L1 Hlen. unfold getPaddingValuesFromExplicitPadAttr.
  change (Zrange 0 2) with [0; 1]. cbn [for_each bind Monad_Outcome].
  set (x0 := GetTensorSpatialDimIndex 4 data_format_tf 0) in *.
  set (x1 := GetTensorSpatialDimIndex 4 data_format_tf 1) in *.
  rewrite !to_uint32_id by lia.
  pose proof (at_index_IntegerAttr width pads (x0 * 2) ltac:(lia)) as A.
  pose proof (at_index_IntegerAttr width pads (x0 * 2 + 1) ltac:(lia)) as B.
  pose proof (at_index_IntegerAttr width pads (x1 * 2) ltac:(lia)) as C.
  pose proof (at_index_IntegerAttr width pads (x1 * 2 + 1) ltac:(lia)) as D.
  cbn [bind Monad_Outcome] in A, B, C, D.
  destruct (at_index (map (IntegerAttr width) pads) (x0 * 2)) as [a|];
    [|discriminate]. rewrite A.
  destruct (at_index (map (IntegerAttr width) pads) (x0 * 2 + 1)) as [b|];
    [|discriminate]. rewrite B. cbn [ret Monad_Outcome].
  destruct (at_index (map (IntegerAttr width) pads) (x1 * 2)) as [c|];
    [|discriminate]. rewrite C.
  destruct (at_index (map (IntegerAttr width) pads) (x1 * 2 + 1)) as [d|];
    [|discriminate]. rewrite D.
  unfold getI64ArrayAttr, push_back. cbn [app map].
  replace (2 * x0) with (x0 * 2) by lia.
  replace (2 * x1) with (x1 * 2) by lia. reflexivity.
Qed.

End MorePaddingProperties.

(** The overflowing geometry of input size 2^31 + 1: the emitted values
    are 0. *)
Lemma getTransposeConv2dPaddingValues_never_negative_witness :
  exists before0 after0 before1 after1,
    getTransposeConv2dPaddingValues GetTensorSpatialDimIndex_4d SAME
      FORMAT_NHWC 1 (i32_tensor [1; 2 ^ 31 + 1; 2 ^ 31 + 1; 1])
      (i32_tensor [1; 1; 1; 1]) (i32_tensor [1; 1; 1; 1])
      (getI64ArrayAttr [1; 1]) (getI64ArrayAttr [1; 1])
    = Returned (true, [IntegerAttr 64 before0; IntegerAttr 64 before1])
    /\ transpose_conv_padding (2 ^ 31 + 1) 1 1 1 1 = (before0, after0)
    /\ transpose_conv_padding (2 ^ 31 + 1) 1 1 1 1 = (before1, after1)
    /\ 0 <= before0 < 2 ^ 30 /\ before0 <= after0 <= before0 + 1
    /\ 0 <= before1 < 2 ^ 30 /\ before1 <= after1 <= before1 + 1.
Proof.
  apply (getTransposeConv2dPaddingValues_never_negative
           GetTensorSpatialDimIndex_4d SAME FORMAT_NHWC 1
           (i32_tensor [1; 2 ^ 31 + 1; 2 ^ 31 + 1; 1])
           (i32_tensor [1; 1; 1; 1]) (i32_tensor [1; 1; 1; 1])
           (getI64ArrayAttr [1; 1]) (getI64ArrayAttr [1; 1])
           (2 ^ 31 + 1) 1 1 1 1 (2 ^ 31 + 1) 1 1 1 1).
  - discriminate.
  - reflexivity.
  - reflexivity.
Defined.

(** A channel-last pad array of 32-bit attributes: the pairs of the height
    and of the width are extracted. *)
Lemma getPaddingValuesFromExplicitPadAttr_extracts_witness :
  getPaddingValuesFromExplicitPadAttr GetTensorSpatialDimIndex_4d
    (map (IntegerAttr 32) [0; 0; 1; 2; 3; 4; 0; 0]) FORMAT_NHWC
  = Returned
      [IntegerAttr 64
         (nth (Z.to_nat (2 * GetTensorSpatialDimIndex_4d 4 FORMAT_NHWC 0))
            [0; 0; 1; 2; 3; 4; 0; 0] 0);
       IntegerAttr 64
         (nth (Z.to_nat (2 * GetTensorSpatialDimIndex_4d 4 FORMAT_NHWC 0 + 1))
            [0; 0; 1; 2; 3; 4; 0; 0] 0);
       IntegerAttr 64
         (nth (Z.to_nat (2 * GetTensorSpatialDimIndex_4d 4 FORMAT_NHWC 1))
            [0; 0; 1; 2; 3; 4; 0; 0] 0);
       IntegerAttr 64
         (nth (Z.to_nat (2 * GetTensorSpatialDimIndex_4d 4 FORMAT_NHWC 1 + 1))
            [0; 0; 1; 2; 3; 4; 0; 0] 0)].
Proof.
  apply (getPaddingValuesFromExplicitPadAttr_extracts
           GetTensorSpatialDimIndex_4d [0; 0; 1; 2; 3; 4; 0; 0] 32
           FORMAT_NHWC);
    vm_compute; try discriminate; reflexivity.
Defined.

Example explicit_pad_channel_last :
  getPaddingValuesFromExplicitPadAttr GetTensorSpatialDimIndex_4d
    (map (IntegerAttr 32) [0; 0; 1; 2; 3; 4; 0; 0]) FORMAT_NHWC
  = Returned (getI64ArrayAttr [1; 2; 3; 4]).
Proof. reflexivity. Qed.

Example explicit_pad_channel_first :
  getPaddingValuesFromExplicitPadAttr GetTensorSpatialDimIndex_4d
    (map (IntegerAttr 32) [0; 0; 0; 0; 1; 2; 3; 4]) FORMAT_NCHW
  = Returned (getI64ArrayAttr [1; 2; 3; 4]).
Proof. reflexivity. Qed.

Example explicit_pad_too_short :
  getPaddingValuesFromExplicitPadAttr GetTensorSpatialDimIndex_4d
    (map (IntegerAttr 32) [0; 0; 1; 2]) FORMAT_NHWC
  = Aborted "index out of range".
Proof. reflexivity. Qed.

Section WindowedPaddingProperties.

Variable GetTensorSpatialDimIndex : Z -> TensorFormat -> Z -> Z.
Variable GetWindowedOutputSizeVerboseV2 :
  Z -> Z -> Z -> Z -> Padding -> option (Z * Z * Z).

(** The regular-convolution translator along its two loop iterations, once
    the assertion on the padding kind holds. *)
Lemma getPaddingValuesFromPadType_steps
  (tf_pad : Padding) (data_format_tf : TensorFormat)
  (first_filter_spatial_dim : Z)
  (input_type filter_type : RankedTensorType)
  (strides dilations : ArrayAttr) :
  tf_pad <> EXPLICIT ->
  let read :=
    read_window_dim GetTensorSpatialDimIndex data_format_tf
      first_filter_spatial_dim input_type filter_type strides dilations in
  getPaddingValuesFromPadType GetTensorSpatialDimIndex
    GetWindowedOutputSizeVerboseV2 tf_pad data_format_tf
    first_filter_spatial_dim input_type filter_type strides dilations
  = match read 0 with
    | Aborted why => Aborted why
    | Returned (ifm0, f0, d0, s0) =>
        match GetWindowedOutputSizeVerboseV2 ifm0 f0 d0 s0 tf_pad with
        | None => Returned (false, None)
        | Some (_, before0, after0) =>
            match read 1 with
            | Aborted why => Aborted why
            | Returned (ifm1, f1, d1, s1) =>
                match GetWindowedOutputSizeVerboseV2 ifm1 f1 d1 s1 tf_pad with
                | None => Returned (false, None)
                | Some (_, before1, after1) =>
                    Returned (true,
                              Some (getI64ArrayAttr
                                      [before0; after0; before1; after1]))
                end
            end
        end
    end.
Proof.
  intros Hpad read. subst read.
  unfold getPaddingValuesFromPadType, read_window_dim.
  destruct (Padding_eqb tf_pad EXPLICIT) eqn:E.
  { apply Padding_eqb_EXPLICIT in E. contradiction. }
  cbn [negb assert bind Monad_Outcome].
  change (Zrange 0 2) with [0; 1]. cbn [for_each bind ret Monad_Outcome].
  destruct (at_index dilations 0) as [da0|]; [|reflexivity].
  destruct (cast_IntegerAttr_getInt da0) as [d0|]; [|reflexivity].
  destruct (at_index strides 0) as [sa0|]; [|reflexivity].
  destruct (cast_IntegerAttr_getInt sa0) as [s0|]; [|reflexivity].
  destruct (getDimSize input_type _) as [ifm0|]; [|reflexivity].
  destruct (getDimSize filter_type _) as [f0|]; [|reflexivity].
  destruct (GetWindowedOutputSizeVerboseV2 ifm0 f0 d0 s0 tf_pad)
    as [[[o0 b0] a0]|]; [|reflexivity].
  cbn [bind ret Monad_Outcome].
  destruct (at_index dilations 1) as [da1|]; [|reflexivity].
  destruct (cast_IntegerAttr_getInt da1) as [d1|]; [|reflexivity].
  destruct (at_index strides 1) as [sa1|]; [|reflexivity].
  destruct (cast_IntegerAttr_getInt sa1) as [s1|]; [|reflexivity].
  destruct (getDimSize input_type _) as [ifm1|]; [|reflexivity].
  destruct (getDimSize filter_type _) as [f1|]; [|reflexivity].
  destruct (GetWindowedOutputSizeVerboseV2 ifm1 f1 d1 s1 tf_pad)
    as [[[o1 b1] a1]|]; reflexivity.
Qed.

(** X14: when the windowed output size can be computed for both spatial
    dimensions, the regular-convolution translator returns [true] and
    assigns four 64-bit entries: (before, after) of the first spatial
    dimension, then (before, after) of the second, as the size computation
    gave them. *)
Theorem getPaddingValuesFromPadType_success
  (tf_pad : Padding) (data_format_tf : TensorFormat)
  (first_filter_spatial_dim : Z)
  (input_type filter_type : RankedTensorType)
  (strides dilations : ArrayAttr)
  (ifm0 f0 d0 s0 ifm1 f1 d1 s1 size0 before0 after0 size1 before1 after1 : Z) :
  tf_pad <> EXPLICIT ->
  read_window_dim GetTensorSpatialDimIndex data_format_tf
    first_filter_spatial_dim input_type filter_type strides dilations 0
  = Returned (ifm0, f0, d0, s0) ->
  read_window_dim GetTensorSpatialDimIndex data_format_tf
    first_filter_spatial_dim input_type filter_type strides dilations 1
  = Returned (ifm1, f1, d1, s1) ->
  GetWindowedOutputSizeVerboseV2 ifm0 f0 d0 s0 tf_pad
  = Some (size0, before0, after0) ->
  GetWindowedOutputSizeVerboseV2 ifm1 f1 d1 s1 tf_pad
  = Some (size1, before1, after1) ->
  getPaddingValuesFromPadType GetTensorSpatialDimIndex
    GetWindowedOutputSizeVerboseV2 tf_pad data_format_tf
    first_filter_spatial_dim input_type filter_type strides dilations
  = Returned (true,
              Some [IntegerAttr 64 before0; IntegerAttr 64 after0;
                    IntegerAttr 64 before1; IntegerAttr 64 after1]).
Proof.
  intros Hpad R0 R1 W0 W1.
  rewrite (getPaddingValuesFromPadType_steps _ _ _ _ _ _ _ Hpad).
  cbv zeta. rewrite R0, W0, R1, W1. reflexivity.
Qed.

(** X15: when the windowed output size cannot be computed, the
    regular-convolution translator returns [false] and assigns no padding
    at all, none of the first dimension either when it is the second that
    fails; a failure in the first dimension returns at once, before
    anything of the second dimension is read. *)
Theorem getPaddingValuesFromPadType_failure
  (tf_pad : Padding) (data_format_tf : TensorFormat)
  (first_filter_spatial_dim : Z)
  (input_type filter_type : RankedTensorType)
  (strides dilations : ArrayAttr) (ifm0 f0 d0 s0 : Z) :
  tf_pad <> EXPLICIT ->
  read_window_dim GetTensorSpatialDimIndex data_format_tf
    first_filter_spatial_dim input_type filter_type strides dilations 0
  = Returned (ifm0, f0, d0, s0) ->
  GetWindowedOutputSizeVerboseV2 ifm0 f0 d0 s0 tf_pad = None
  \/ (exists ifm1 f1 d1 s1,
        read_window_dim GetTensorSpatialDimIndex data_format_tf
          first_filter_spatial_dim input_type filter_type strides dilations 1
        = Returned (ifm1, f1, d1, s1)
        /\ GetWindowedOutputSizeVerboseV2 ifm0 f0 d0 s0 tf_pad <> None
        /\ GetWindowedOutputSizeVerboseV2 ifm1 f1 d1 s1 tf_pad = None) ->
  getPaddingValuesFromPadType GetTensorSpatialDimIndex
    GetWindowedOutputSizeVerboseV2 tf_pad data_format_tf
    first_filter_spatial_dim input_type filter_type strides dilations
  = Returned (false, None).
Proof.
  intros Hpad R0 [W0|(ifm1 & f1 & d1 & s1 & R1 & W0 & W1)];
    rewrite (getPaddingValuesFromPadType_steps _ _ _ _ _ _ _ Hpad);
    cbv zeta; rewrite R0.
  - rewrite W0. reflexivity.
  - destruct (GetWindowedOutputSizeVerboseV2 ifm0 f0 d0 s0 tf_pad)
      as [[[o0 b0] a0]|]; [|congruence].
    rewrite R1, W1. reflexivity.
Qed.

End WindowedPaddingProperties.

(** A size computation that pads one element on each side. *)
Lemma getPaddingValuesFromPadType_success_witness :
  getPaddingValuesFromPadType GetTensorSpatialDimIndex_4d
    (fun _ _ _ _ _ => Some (4, 1, 1)) SAME FORMAT_NHWC 1
    (i32_tensor [1; 4; 4; 1]) (i32_tensor [1; 3; 3; 1])
    (getI64ArrayAttr [1; 1]) (getI64ArrayAttr [1; 1])
  = Returned (true,
              Some [IntegerAttr 64 1; IntegerAttr 64 1;
                    IntegerAttr 64 1; IntegerAttr 64 1]).
Proof.
  apply (getPaddingValuesFromPadType_success GetTensorSpatialDimIndex_4d
           (fun _ _ _ _ _ => Some (4, 1, 1)) SAME FORMAT_NHWC 1
           (i32_tensor [1; 4; 4; 1]) (i32_tensor [1; 3; 3; 1])
           (getI64ArrayAttr [1; 1]) (getI64ArrayAttr [1; 1])
           4 3 1 1 4 3 1 1 4 1 1 4 1 1);
    try reflexivity.
  discriminate.
Defined.

(** A size computation that fails where the input is smaller than the
    filter: here in the second spatial dimension only. *)
Lemma getPaddingValuesFromPadType_failure_witness :
  getPaddingValuesFromPadType GetTensorSpatialDimIndex_4d
    (fun ifm f _ _ _ => if ifm <? f then None else Some (ifm - f + 1, 0, 0))
    VALID FORMAT_NHWC 1
    (i32_tensor [1; 4; 2; 1]) (i32_tensor [1; 3; 3; 1])
    (getI64ArrayAttr [1; 1]) (getI64ArrayAttr [1; 1])
  = Returned (false, None).
Proof.
  apply (getPaddingValuesFromPadType_failure GetTensorSpatialDimIndex_4d
           (fun ifm f _ _ _ =>
              if ifm <? f then None else Some (ifm - f + 1, 0, 0))
           VALID FORMAT_NHWC 1
           (i32_tensor [1; 4; 2; 1]) (i32_tensor [1; 3; 3; 1])
           (getI64ArrayAttr [1; 1]) (getI64ArrayAttr [1; 1]) 4 3 1 1).
  - discriminate.
  - reflexivity.
  - right. exists 2, 3, 1, 1.
    split; [reflexivity|]. split; [discriminate|reflexivity].
Defined.

(** ** Vector extraction and the constant emitters *)

Lemma to_int32_add_l (a b : Z) : to_int32 (to_int32 a + b) = to_int32 (a + b).
Proof.
  unfold to_int32, wrap.
  change (2 ^ (32 - 1)) with 2147483648. change (2 ^ 32) with 4294967296.
  f_equal.
  replace ((a + 2147483648) mod 4294967296 - 2147483648 + b + 2147483648)
    with ((a + 2147483648) mod 4294967296 + b) by lia.
  rewrite Zplus_mod_idemp_l. f_equal. lia.
Qed.

Section ExtractionProperties.

Variable constant_like_fold : Operation -> option Attribute.

(** The extraction loop over integer elements: every element is appended,
    narrowed, and the counter advances by one each time. *)
Lemma extraction_loop_integer (width : Z) (data : list Z) (i : Z)
  (vec : list Z) :
  in_int32 i ->
  for_each data
    (fun idx '(i, vec) =>
       assert (match IntegerType width with
               | IntegerType _ => true
               | _ => false
               end) "cast<IntegerAttr> on another attribute" ;;;
       ret (to_int32 (i + 1), push_back vec (to_int32 idx)))
    (i, vec)
  = Returned (to_int32 (i + Z.of_nat (List.length data)),
              vec ++ map to_int32 data).
Proof.
  revert i vec. induction data as [|x data IH]; intros i vec Hi.
  - cbn. rewrite Z.add_0_r, to_int32_id, app_nil_r by exact Hi. reflexivity.
  - cbn [for_each assert bind ret Monad_Outcome].
    rewrite IH by apply to_int32_range.
    rewrite to_int32_add_l. unfold push_back.
    cbn [List.length map]. rewrite <- app_assoc. cbn [app].
    f_equal. f_equal. f_equal. lia.
Qed.

Lemma getVectorFromValue32_on_integers (val : Value) (vec : list Z)
  (ty : RankedTensorType) (data : list Z) (width : Z) :
  matchPattern_m_Constant constant_like_fold val
  = Some (DenseElementsAttr ty data) ->
  getElementType ty = IntegerType width ->
  Z.of_nat (List.length data) < 2 ^ 31 ->
  getVectorFromValue32 constant_like_fold val vec
  = Returned (Z.of_nat (List.length data), vec ++ map to_int32 data).
Proof.
  intros Hm Hty Hlen. unfold getVectorFromValue32. cbv zeta. rewrite Hm.
  cbn [elements_of]. rewrite Hty.
  rewrite (extraction_loop_integer width)
    by (unfold in_int32; change (2 ^ 31) with 2147483648; lia).
  rewrite Z.add_0_l, to_int32_id; [reflexivity|].
  unfold in_int32. lia.
Qed.

(** X17: on a value that matches as a constant whose elements attribute
    has an integer element type and fewer than 2^31 elements,
    [getVectorFromValue32] appends the elements in order behind what the
    vector already holds, each narrowed to 32 bits, and returns their
    number (which is the size of the vector only when it was empty). *)
Theorem getVectorFromValue32_appends (val : Value) (vec : list Z)
  (ty : RankedTensorType) (data : list Z) (width : Z) :
  matchPattern_m_Constant constant_like_fold val
  = Some (DenseElementsAttr ty data) ->
  getElementType ty = IntegerType width ->
  Z.of_nat (List.length data) < 2 ^ 31 ->
  getVectorFromValue32 constant_like_fold val vec
  = Returned (Z.of_nat (List.length data), vec ++ map to_int32 data)
  /\ Forall in_int32 (skipn (List.length vec) (vec ++ map to_int32 data)).
Proof.
  intros Hm Hty Hlen. split.
  - exact (getVectorFromValue32_on_integers val vec ty data width Hm Hty Hlen).
  - rewrite skipn_app, skipn_all, Nat.sub_diag. cbn [skipn app].
    apply Forall_map, Forall_forall. intros x _. apply to_int32_range.
Qed.

(** X18: the sentinel -1 cannot be mistaken for a count.  With fewer than
    2^31 elements in a matched constant, whenever [getVectorFromValue32]
    returns, either nothing matched, the result is -1 and the vector is
    untouched, or a constant matched, the result is non-negative and is
    the number of elements appended to the vector (0 for an empty
    constant). *)
Theorem getVectorFromValue32_sentinel (val : Value) (vec vec' : list Z)
  (n : Z) :
  (forall elems,
      matchPattern_m_Constant constant_like_fold val = Some elems ->
      Z.of_nat (List.length (snd (elements_of elems))) < 2 ^ 31) ->
  getVectorFromValue32 constant_like_fold val vec = Returned (n, vec') ->
  (matchPattern_m_Constant constant_like_fold val = None
   /\ n = -1 /\ vec' = vec)
  \/ (matchPattern_m_Constant constant_like_fold val <> None
      /\ 0 <= n
      /\ Z.of_nat (List.length vec') = Z.of_nat (List.length vec) + n).
Proof.
  intros Hbound. unfold getVectorFromValue32. cbv zeta.
  destruct (matchPattern_m_Constant constant_like_fold val) as [elems|] eqn:Hm.
  - specialize (Hbound elems eq_refl). intros H. right.
    split; [discriminate|].
    destruct (elements_of elems) as [element_type data] eqn:He.
    cbn [snd] in Hbound.
    destruct element_type as [w| | | |];
      try (destruct data as [|x data]; cbn in H; [|discriminate];
           injection H as <- <-; split; lia).
    rewrite (extraction_loop_integer w) in H
      by (unfold in_int32; change (2 ^ 31) with 2147483648; lia).
    injection H as <- <-.
    rewrite to_int32_id by (unfold in_int32; lia).
    rewrite length_app, length_map. split; lia.
  - intros H. injection H as <- <-. left. repeat split; reflexivity.
Qed.

(** X19: what [get1DConstTensor] emits, [getVectorFromValue32] reads back.
    For an array of fewer than 2^31 values that fit 32 bits, the emitter
    creates a constant of one dimension, the length of the array, which
    stores the array, and, [tosa.const] being constant-like and folding to
    its value, the extraction from that constant into an empty vector
    returns the length and the array itself. *)
Theorem get1DConstTensor_roundtrip (width : Z) (op : Operation)
  (arr : list Z) (h : Host) :
  (forall ty value, constant_like_fold (TosaConstOp ty value) = Some value) ->
  Z.of_nat (List.length arr) < 2 ^ 31 ->
  Forall in_int32 arr ->
  exists v h',
    get1DConstTensor width op arr h = Returned (v, h')
    /\ getType v
       = Some (Ranked (mkRankedTensorType [Z.of_nat (List.length arr)]
                         (IntegerType width)))
    /\ table_of v = Some arr
    /\ getVectorFromValue32 constant_like_fold v []
       = Returned (Z.of_nat (List.length arr), arr).
Proof.
  intros Hfold Hlen Hfit.
  assert (Hdim : to_int32 (Z.of_nat (List.length arr))
                 = Z.of_nat (List.length arr))
    by (apply to_int32_id; unfold in_int32; lia).
  eexists _, _. split; [reflexivity|].
  split; [cbn [getType getResultType]; rewrite Hdim; reflexivity|].
  split; [reflexivity|].
  rewrite getVectorFromValue32_on_integers
    with (ty := mkRankedTensorType [to_int32 (Z.of_nat (List.length arr))]
                  (IntegerType width))
         (data := arr) (width := width);
    [| unfold matchPattern_m_Constant; cbn [getDefiningOp];
       rewrite Hfold; reflexivity
     | reflexivity | exact Hlen].
  cbn [app]. f_equal. f_equal. clear Hlen Hdim.
  induction Hfit as [|x l Hx _ IH]; cbn [map]; [reflexivity|].
  rewrite to_int32_id by exact Hx. rewrite IH. reflexivity.
Qed.

End ExtractionProperties.

(** X20: the scalar emitted by [getTosaConstTensorSingleI32] is a rank-0
    constant of element type i32, and, [tosa.const] being constant-like and
    folding to its value, the extraction from it appends that one value to
    the vector and returns 1. *)
Theorem getTosaConstTensorSingleI32_roundtrip
  (constant_like_fold : Operation -> option Attribute)
  (op : Operation) (val : Z) (h : Host) (vec : list Z) :
  (forall ty value, constant_like_fold (TosaConstOp ty value) = Some value) ->
  in_int32 val ->
  exists v h',
    getTosaConstTensorSingleI32 op val h = Returned (v, h')
    /\ getType v = Some (Ranked (mkRankedTensorType [] (IntegerType 32)))
    /\ created h' = created h ++ [TosaConstOp
                                    (mkRankedTensorType [] (IntegerType 32))
                                    (DenseElementsAttr
                                       (mkRankedTensorType [] (IntegerType 32))
                                       [val])]
    /\ getVectorFromValue32 constant_like_fold v vec
       = Returned (1, vec ++ [val]).
Proof.
  intros Hfold Hval.
  eexists _, _. split; [reflexivity|]. split; [reflexivity|].
  split; [reflexivity|].
  rewrite getVectorFromValue32_on_integers
    with (ty := mkRankedTensorType [] (IntegerType 32))
         (data := [val]) (width := 32);
    [| unfold matchPattern_m_Constant; cbn [getDefiningOp];
       rewrite Hfold; reflexivity
     | reflexivity | reflexivity].
  cbn [map List.length Z.of_nat Pos.of_succ_nat].
  rewrite to_int32_id by exact Hval. reflexivity.
Qed.

Lemma getTosaConstTensorSingleI32_roundtrip_witness :
  exists v h',
    getTosaConstTensorSingleI32 (OtherOp "tfl.mul" (Ranked (i32_tensor [1])))
      (-7) empty_host = Returned (v, h')
    /\ getType v = Some (Ranked (mkRankedTensorType [] (IntegerType 32)))
    /\ created h' = created empty_host
                    ++ [TosaConstOp
                          (mkRankedTensorType [] (IntegerType 32))
                          (DenseElementsAttr
                             (mkRankedTensorType [] (IntegerType 32)) [-7])]
    /\ getVectorFromValue32 fold_tosa_const v [5] = Returned (1, [5] ++ [-7]).
Proof.
  apply (getTosaConstTensorSingleI32_roundtrip fold_tosa_const
           (OtherOp "tfl.mul" (Ranked (i32_tensor [1]))) (-7) empty_host [5]).
  - reflexivity.
  - vm_compute. split; discriminate.
Defined.

(** Three 32-bit elements extracted behind one element already there. *)
Lemma getVectorFromValue32_appends_witness :
  let val :=
    OpResult 0
      (TosaConstOp (i32_tensor [3])
         (DenseElementsAttr (i32_tensor [3]) [1; -2; 3])) in
  getVectorFromValue32 fold_tosa_const val [7]
  = Returned (Z.of_nat (List.length [1; -2; 3]),
              [7] ++ map to_int32 [1; -2; 3])
  /\ Forall in_int32
       (skipn (List.length [7]) ([7] ++ map to_int32 [1; -2; 3])).
Proof.
  cbv zeta.
  apply (getVectorFromValue32_appends fold_tosa_const
           (OpResult 0
              (TosaConstOp (i32_tensor [3])
                 (DenseElementsAttr (i32_tensor [3]) [1; -2; 3])))
           [7] (i32_tensor [3]) [1; -2; 3] 32).
  - reflexivity.
  - reflexivity.
  - vm_compute. reflexivity.
Defined.

Example getVectorFromValue32_narrows :
  getVectorFromValue32 fold_tosa_const
    (OpResult 0
       (TosaConstOp (mkRankedTensorType [2] (IntegerType 64))
          (DenseElementsAttr (mkRankedTensorType [2] (IntegerType 64))
             [2 ^ 32 + 5; - 2 ^ 31 - 1])))
    []
  = Returned (2, [5; 2 ^ 31 - 1]).
Proof. vm_compute. reflexivity. Qed.

Example getVectorFromValue32_empty_constant :
  getVectorFromValue32 fold_tosa_const
    (OpResult 0
       (TosaConstOp (i32_tensor [0]) (DenseElementsAttr (i32_tensor [0]) [])))
    [4]
  = Returned (0, [4]).
Proof. reflexivity. Qed.

(** A block argument: nothing matches. *)
Lemma getVectorFromValue32_sentinel_witness :
  let val := BlockArgument 0 (Ranked (i32_tensor [3])) in
  (matchPattern_m_Constant fold_tosa_const val = None
   /\ -1 = -1 /\ [4; 5] = [4; 5])
  \/ (matchPattern_m_Constant fold_tosa_const val <> None
      /\ 0 <= -1
      /\ Z.of_nat (List.length [4; 5]) = Z.of_nat (List.length [4; 5]) + -1).
Proof.
  cbv zeta.
  apply (getVectorFromValue32_sentinel fold_tosa_const
           (BlockArgument 0 (Ranked (i32_tensor [3]))) [4; 5] [4; 5] (-1)).
  - intros elems H. discriminate H.
  - reflexivity.
Defined.

Lemma get1DConstTensor_roundtrip_witness :
  exists v h',
    get1DConstTensor 32 (OtherOp "tfl.reshape" (Ranked (i32_tensor [3])))
      [1; -2; 3] empty_host = Returned (v, h')
    /\ getType v
       = Some (Ranked (mkRankedTensorType
                         [Z.of_nat (List.length [1; -2; 3])]
                         (IntegerType 32)))
    /\ table_of v = Some [1; -2; 3]
    /\ getVectorFromValue32 fold_tosa_const v []
       = Returned (Z.of_nat (List.length [1; -2; 3]), [1; -2; 3]).
Proof.
  apply (get1DConstTensor_roundtrip fold_tosa_const 32
           (OtherOp "tfl.reshape" (Ranked (i32_tensor [3])))
           [1; -2; 3] empty_host).
  - reflexivity.
  - vm_compute. reflexivity.
  - repeat (apply Forall_cons; [vm_compute; split; discriminate|]).
    apply Forall_nil.
Defined.
